(** * The development-workflow agent: state, handlers and transition graph

    A shallow embedding of the workflow engine of the repository:

    - [development-workflow-agent.py]: the state schema [WorkflowState],
      [add_to_history] and the node functions (handlers);
    - [user-stories-module.py]: the node functions of the user-story phase
      in their modular form;
    - [modular-architecture.py]: [create_development_workflow] (the nodes and
      edges of the graph), the schema, and the modular [collect_requirements].

    The handlers receive the state as a Python [Dict] and mutate it in place;
    they are embedded as computations in a state-and-exception monad over a
    finite map from keys to Python values. *)

From Stdlib Require Import ZArith String List.
From Stdlib Require Import Floats.SpecFloat.
From stdpp Require Import base option list gmap strings fin_maps.

Local Open Scope string_scope.
Local Open Scope Z_scope.

(** ** Python values *)

(** The values that the state dict and the parsed JSON output of the model
    hold: [None], booleans, integers, floats, strings, lists and dicts keyed
    by strings.  A Python string is held as its UTF-8 encoding.  Objects of
    other classes (a chat model, a pydantic model) are not among them. *)
#[warnings="-register-all"]
Inductive value : Type :=
  | VNone
  | VBool (b : bool)
  | VInt (z : Z)
  | VFloat (f : spec_float)
  | VStr (s : string)
  | VList (l : list value)
  | VDict (d : gmap string value).

(** The state dict that every handler receives, mutates and returns. *)
Abbreviation State := (gmap string value).

(** Exceptions. [KeyError], [TypeError] and [AttributeError] are the ones the
    dict and list operations of the handlers raise; [ModelCallError] stands
    for any exception raised by [chain.invoke] or in building its prompt;
    [UnknownStepError] is raised by the driver for a step with no registered
    handler. *)
Inductive error : Type :=
  | KeyError (k : string)
  | TypeError
  | AttributeError
  | ModelCallError
  | UnknownStepError (s : string).

Inductive result (A : Type) : Type :=
  | Ok (a : A)
  | Raise (e : error).
Arguments Ok {A} a.
Arguments Raise {A} e.

#[global] Instance result_ret : MRet result := λ A a, Ok a.
#[global] Instance result_bind : MBind result := λ A B f r,
  match r with
  | Ok a => f a
  | Raise e => Raise e
  end.

Definition is_ok {A} (r : result A) : bool :=
  match r with Ok _ => true | Raise _ => false end.

(** Python's truth value of an object ([if v], [v if c else w]). *)
Definition truthy (v : value) : bool :=
  match v with
  | VNone => false
  | VBool b => b
  | VInt z => negb (z =? 0)
  | VFloat (S754_zero _) => false
  | VFloat _ => true
  | VStr s => negb (String.eqb s "")
  | VList [] => false
  | VList (_ :: _) => true
  | VDict d => negb (bool_decide (dom d = ∅))
  end.

(** [v[k]] for a string key [k]. *)
Definition getitem (v : value) (k : string) : result value :=
  match v with
  | VDict d =>
      match d !! k with
      | Some x => Ok x
      | None => Raise (KeyError k)
      end
  | _ => Raise TypeError
  end.

(** [v.get(k, dflt)]. *)
Definition get (v : value) (k : string) (dflt : value) : result value :=
  match v with
  | VDict d => Ok (default dflt (d !! k))
  | _ => Raise AttributeError
  end.

(** [v.k] for a field name [k] ([user_stories], [approved]) read as an
    attribute.  [JsonOutputParser] returns the parsed JSON itself, whatever
    [pydantic_object] it was given: a dict, a list, a string, a number, a
    boolean or [None].  None of these has such an attribute (the entries of a
    dict are not its attributes), so the access raises on every value. *)
Definition getattr (v : value) (k : string) : result value :=
  Raise AttributeError.

(** [v.dict()], a method of pydantic models that none of the values has. *)
Definition to_dict (v : value) : result value :=
  Raise AttributeError.

(** The bytes [10xxxxxx] of an encoded string continue a code point; every
    other byte starts one. *)
Definition continuation (a : Ascii.ascii) : bool :=
  (128 <=? Ascii.nat_of_ascii a)%nat && (Ascii.nat_of_ascii a <? 192)%nat.

(** The number of code points of a string. *)
Fixpoint code_points (s : string) : nat :=
  match s with
  | EmptyString => 0%nat
  | String a s' => ((if continuation a then 0 else 1) + code_points s')%nat
  end.

(** The first [n] code points of a string. *)
Fixpoint first_code_points (n : nat) (s : string) : string :=
  match s with
  | EmptyString => EmptyString
  | String a s' =>
      if continuation a then String a (first_code_points n s')
      else match n with
           | O => EmptyString
           | S n' => String a (first_code_points n' s')
           end
  end.

(** [len(v)]. *)
Definition len (v : value) : result Z :=
  match v with
  | VStr s => Ok (Z.of_nat (code_points s))
  | VList l => Ok (Z.of_nat (length l))
  | VDict d => Ok (Z.of_nat (size d))
  | _ => Raise TypeError
  end.

(** [v[:n]]. *)
Definition slice_to (n : nat) (v : value) : result value :=
  match v with
  | VStr s => Ok (VStr (first_code_points n s))
  | VList l => Ok (VList (take n l))
  | _ => Raise TypeError
  end.

(** [[f(x) for x in v]]. *)
Fixpoint traverse (f : value → result value) (l : list value) : result (list value) :=
  match l with
  | [] => Ok []
  | x :: l' => y ← f x; ys ← traverse f l'; Ok (y :: ys)
  end.

Definition comprehension (f : value → result value) (v : value) : result value :=
  match v with
  | VList l => ys ← traverse f l; Ok (VList ys)
  | _ => Raise TypeError
  end.

(** ** Handlers as computations on the state dict *)

(** A handler runs against the one state dict of the run, which it mutates in
    place: what it wrote before raising stays written.  A computation
    therefore returns the state it leaves behind together with its value or
    the exception. *)
Definition M (A : Type) : Type := State → State * result A.

#[global] Instance M_ret : MRet M := λ A a st, (st, Ok a).
#[global] Instance M_bind : MBind M := λ A B f m st,
  match m st with
  | (st', Ok a) => f a st'
  | (st', Raise e) => (st', Raise e)
  end.

(** An expression that reads no state. *)
Definition lift {A} (r : result A) : M A := λ st, (st, r).

(** [state[k]]. *)
Definition state_getitem (k : string) : M value := λ st,
  (st, match st !! k with
       | Some v => Ok v
       | None => Raise (KeyError k)
       end).

(** [state.get(k, dflt)]. *)
Definition state_get (k : string) (dflt : value) : M value := λ st,
  (st, Ok (default dflt (st !! k))).

(** [state[k] = v]. *)
Definition state_setitem (k : string) (v : value) : M unit := λ st,
  (<[k := v]> st, Ok tt).

(** [state[field][k] = v]: the dict held under [field] is updated in place. *)
Definition state_setitem_in (field k : string) (v : value) : M unit := λ st,
  match st !! field with
  | None => (st, Raise (KeyError field))
  | Some (VDict d) => (<[field := VDict (<[k := v]> d)]> st, Ok tt)
  | Some _ => (st, Raise TypeError)
  end.

(** [state[field].append(v)]: the list held under [field] grows in place. *)
Definition state_append (field : string) (v : value) : M unit := λ st,
  match st !! field with
  | None => (st, Raise (KeyError field))
  | Some (VList l) => (<[field := VList (l ++ [v])]> st, Ok tt)
  | Some _ => (st, Raise AttributeError)
  end.

(** ** The collaborators of a handler invocation *)

(** What one handler invocation obtains from outside the state: the reading of
    the clock ([datetime.now().isoformat()]) and the outcome of
    [chain.invoke].  The handler interpolates what it read into the text of a
    prompt template, which the chain formats, sends to the model and parses
    as JSON.  None of this leaves a trace in the state.  [reply] is the
    parsed output; it is [None] when there is none: the model or the parser
    raises, or the template cannot be built or formatted (its text is taken
    as a format string, so a brace in an interpolated value, such as the
    rendering of a dict, is read as a placeholder that the empty input does
    not fill).  Which states admit a reply is not decided here: a statement
    that assumes [reply e = Some r] speaks of an invocation whose chain
    returned. *)
Record env : Type := Env {
  now : string;
  reply : option value
}.

(** [chain.invoke(...)]. *)
Definition invoke (e : env) : M value :=
  lift (match reply e with
        | Some r => Ok r
        | None => Raise ModelCallError
        end).

(** What [|] accepts as an operand: a runnable, a callable, or a dict, which
    is made a parallel runnable of its entries, each coerced in turn.  Of
    the values here only a dict can pass, when all its entries do. *)
#[warnings="-register-all"]
Fixpoint runnable (v : value) : bool :=
  match v with
  | VDict d => map_fold (λ _ x acc, runnable x && acc) true d
  | _ => false
  end.

(** [prompt | llm | parser]: an operand that cannot be coerced into a
    runnable is refused with [TypeError].  That is the case of [None],
    which [state.get("llm")] gives on every state of the schema. *)
Definition pipe (llm : value) : result unit :=
  if runnable llm then Ok tt else Raise TypeError.

(** Python's [str] of a value, as the f-strings of the audit messages use
    it.  The messages are carried but never inspected, so the rendering is
    left abstract. *)
Class Rendering : Type := py_str : value → string.

(** A node function of the graph. *)
Definition handler : Type := env → M unit.

(** [add_to_history(state, actor, message)]: the same function in
    [development-workflow-agent.py], [user-stories-module.py] and
    [modular-architecture.py]. *)
Definition add_to_history (e : env) (actor message : string) : M unit :=
  state_append "history"
    (VDict (<["actor" := VStr actor]>
           (<["message" := VStr message]>
           (<["timestamp" := VStr (now e)]> ∅)))).

(** The name of a step, as stored under [current_step]. *)
Definition goto (step : string) : M unit :=
  state_setitem "current_step" (VStr step).

(** ** The node functions of [development-workflow-agent.py] *)

Module Monolith.
Section Handlers.
Context `{Rendering}.

(** The chain of this handler has no output parser: its reply is a message,
    of which the handler uses [response.content] only; [reply] is that
    content. *)
Definition collect_requirements : handler := λ e,
  history ← state_get "history" (VList []);
  content ← invoke e;
  state_setitem_in "user_inputs" "requirements_document" content;;
  head ← lift (slice_to 100 content);
  add_to_history e "ai" ("Requirements collected: " ++ py_str head ++ "...");;
  goto "generate_user_stories".

Definition generate_user_stories : handler := λ e,
  user_inputs ← state_getitem "user_inputs";
  requirements ← lift (get user_inputs "requirements_document" (VStr ""));
  result ← invoke e;
  stories ← lift (getitem result "user_stories");
  state_setitem "user_stories" stories;;
  stories ← lift (getitem result "user_stories");
  n ← lift (len stories);
  add_to_history e "ai" ("Generated " ++ py_str (VInt n) ++ " user stories");;
  goto "product_owner_review".

Definition product_owner_review : handler := λ e,
  user_stories ← state_getitem "user_stories";
  result ← invoke e;
  state_setitem_in "feedback" "product_owner" result;;
  approved ← lift (getitem result "approved");
  add_to_history e "ai"
    ("Product owner review: " ++
     (if truthy approved then "Approved" else "Needs revision"));;
  approved ← lift (getitem result "approved");
  if truthy approved
  then goto "create_design_documents"
  else goto "revise_user_stories".

Definition revise_user_stories : handler := λ e,
  user_stories ← state_getitem "user_stories";
  fb ← state_getitem "feedback";
  feedback ← lift (getitem fb "product_owner");
  result ← invoke e;
  stories ← lift (getitem result "user_stories");
  state_setitem "user_stories" stories;;
  add_to_history e "ai" "User stories revised based on feedback";;
  goto "product_owner_review".

Definition create_design_documents : handler := λ e,
  user_stories ← state_getitem "user_stories";
  user_inputs ← state_getitem "user_inputs";
  requirements ← lift (get user_inputs "requirements_document" (VStr ""));
  result ← invoke e;
  state_setitem "design_documents" result;;
  add_to_history e "ai" "Design documents created";;
  goto "design_review".

Definition design_review : handler := λ e,
  design_docs ← state_getitem "design_documents";
  result ← invoke e;
  state_setitem_in "feedback" "design_review" result;;
  approved ← lift (getitem result "approved");
  add_to_history e "ai"
    ("Design review: " ++
     (if truthy approved then "Approved" else "Needs revision"));;
  approved ← lift (getitem result "approved");
  if truthy approved
  then goto "generate_code"
  else goto "revise_design_documents".

Definition revise_design_documents : handler := λ e,
  design_docs ← state_getitem "design_documents";
  fb ← state_getitem "feedback";
  feedback ← lift (getitem fb "design_review");
  result ← invoke e;
  state_setitem "design_documents" result;;
  add_to_history e "ai" "Design documents revised based on feedback";;
  goto "design_review".

Definition generate_code : handler := λ e,
  design_docs ← state_getitem "design_documents";
  user_stories ← state_getitem "user_stories";
  result ← invoke e;
  state_setitem "code" result;;
  add_to_history e "ai" "Code generated for implementation";;
  goto "code_review".

Definition code_review : handler := λ e,
  code ← state_getitem "code";
  result ← invoke e;
  state_setitem_in "feedback" "code_review" result;;
  approved ← lift (getitem result "approved");
  add_to_history e "ai"
    ("Code review: " ++
     (if truthy approved then "Approved" else "Needs revision"));;
  approved ← lift (getitem result "approved");
  if truthy approved
  then goto "security_review"
  else goto "fix_code_after_review".

Definition fix_code_after_review : handler := λ e,
  code ← state_getitem "code";
  fb ← state_getitem "feedback";
  feedback ← lift (getitem fb "code_review");
  result ← invoke e;
  state_setitem "code" result;;
  add_to_history e "ai" "Code fixed based on review feedback";;
  goto "code_review".

Definition security_review : handler := λ e,
  code ← state_getitem "code";
  result ← invoke e;
  state_setitem_in "feedback" "security_review" result;;
  approved ← lift (getitem result "approved");
  add_to_history e "ai"
    ("Security review: " ++
     (if truthy approved then "Approved" else "Security issues found"));;
  approved ← lift (getitem result "approved");
  if truthy approved
  then goto "write_test_cases"
  else goto "fix_code_after_security".

Definition fix_code_after_security : handler := λ e,
  code ← state_getitem "code";
  fb ← state_getitem "feedback";
  feedback ← lift (getitem fb "security_review");
  result ← invoke e;
  state_setitem "code" result;;
  add_to_history e "ai" "Code fixed based on security review";;
  goto "security_review".

Definition write_test_cases : handler := λ e,
  user_stories ← state_getitem "user_stories";
  code ← state_getitem "code";
  result ← invoke e;
  cases ← lift (getitem result "test_cases");
  state_setitem "test_cases" cases;;
  cases ← lift (getitem result "test_cases");
  n ← lift (len cases);
  add_to_history e "ai" ("Created " ++ py_str (VInt n) ++ " test cases");;
  goto "test_cases_review".

Definition test_cases_review : handler := λ e,
  test_cases ← state_getitem "test_cases";
  user_stories ← state_getitem "user_stories";
  result ← invoke e;
  state_setitem_in "feedback" "test_cases_review" result;;
  approved ← lift (getitem result "approved");
  add_to_history e "ai"
    ("Test cases review: " ++
     (if truthy approved then "Approved" else "Needs revision"));;
  approved ← lift (getitem result "approved");
  if truthy approved
  then goto "qa_testing"
  else goto "fix_test_cases".

Definition fix_test_cases : handler := λ e,
  test_cases ← state_getitem "test_cases";
  fb ← state_getitem "feedback";
  feedback ← lift (getitem fb "test_cases_review");
  result ← invoke e;
  cases ← lift (getitem result "test_cases");
  state_setitem "test_cases" cases;;
  add_to_history e "ai" "Test cases revised based on feedback";;
  goto "test_cases_review".

Definition qa_testing : handler := λ e,
  code ← state_getitem "code";
  test_cases ← state_getitem "test_cases";
  result ← invoke e;
  state_setitem "qa_results" result;;
  passed ← lift (getitem result "passed");
  pass_rate ← lift (getitem result "pass_rate");
  add_to_history e "ai"
    ("QA testing: " ++ (if truthy passed then "Passed" else "Failed") ++
     " with " ++ py_str pass_rate ++ "% pass rate");;
  passed ← lift (getitem result "passed");
  if truthy passed
  then goto "deployment"
  else goto "fix_code_after_qa".

Definition fix_code_after_qa : handler := λ e,
  code ← state_getitem "code";
  qa_results ← state_getitem "qa_results";
  result ← invoke e;
  state_setitem "code" result;;
  add_to_history e "ai" "Code fixed based on QA testing results";;
  goto "qa_testing".

Definition deployment : handler := λ e,
  code ← state_getitem "code";
  result ← invoke e;
  state_setitem "deployment_plan" result;;
  add_to_history e "ai" "Deployment plan created and executed";;
  goto "monitoring".

Definition monitoring : handler := λ e,
  deployment_plan ← state_get "deployment_plan" (VDict ∅);
  result ← invoke e;
  state_setitem "monitoring_results" result;;
  add_to_history e "ai" "Monitoring data collected and analyzed";;
  goto "maintenance".

(** The part of [maintenance] that the source file holds: what it reads
    from the state before it assembles its prompt. *)
Definition maintenance_reads : M unit :=
  code ← state_getitem "code";
  monitoring_results ← state_get "monitoring_results" (VDict ∅);
  user_feedback ← lift (get monitoring_results "user_feedback" (VDict ∅));
  mret tt.

(** Modelled from the spec: the rest of [maintenance], from the call of the
    chain on, which the source file does not hold.  By §4.1 a handler
    obtains its artifact from the model, writes it into its state field
    (here [maintenance_notes], a sequence of strings that is only ever
    appended to, §3), appends one audit entry, and sets [current_step] to
    its default successor, which for [maintenance] is
    [collect_requirements] (§4.3). *)
Definition maintenance_rest : handler := λ e,
  result ← invoke e;
  state_append "maintenance_notes" (VStr (py_str result));;
  add_to_history e "ai" "Maintenance plan created";;
  goto "collect_requirements".

Definition maintenance : handler := λ e,
  maintenance_reads;;
  maintenance_rest e.

End Handlers.
End Monolith.

(** ** The node functions of [user-stories-module.py] *)

Module UserStories.
Section Handlers.
Context `{Rendering}.

(** [[story.dict() for story in stories]]: every element is asked for its
    [dict()]; a string or a dict is iterated by characters or keys, which
    are strings and have no [dict] method either; other values cannot be
    iterated. *)
Definition story_dicts (stories : value) : result value :=
  match stories with
  | VList l => ds ← traverse to_dict l; Ok (VList ds)
  | VStr s => if String.eqb s "" then Ok (VList []) else Raise AttributeError
  | VDict d =>
      if bool_decide (dom d = ∅) then Ok (VList []) else Raise AttributeError
  | _ => Raise TypeError
  end.

(** In this module the model is read from the state, where no function of
    the sources puts one, and the parsed reply is used as an object: its
    fields are read as attributes. *)
Definition generate_user_stories : handler := λ e,
  user_inputs ← state_getitem "user_inputs";
  requirements ← lift (get user_inputs "requirements_document" (VStr ""));
  llm ← state_get "llm" VNone;
  lift (pipe llm);;
  result ← invoke e;
  stories ← lift (getattr result "user_stories");
  dicts ← lift (story_dicts stories);
  state_setitem "user_stories" dicts;;
  stories ← lift (getattr result "user_stories");
  n ← lift (len stories);
  add_to_history e "ai" ("Generated " ++ py_str (VInt n) ++ " user stories");;
  goto "product_owner_review".

Definition product_owner_review : handler := λ e,
  user_stories ← state_getitem "user_stories";
  llm ← state_get "llm" VNone;
  lift (pipe llm);;
  result ← invoke e;
  d ← lift (to_dict result);
  state_setitem_in "feedback" "product_owner" d;;
  approved ← lift (getattr result "approved");
  add_to_history e "ai"
    ("Product owner review: " ++
     (if truthy approved then "Approved" else "Needs revision"));;
  approved ← lift (getattr result "approved");
  if truthy approved
  then goto "create_design_documents"
  else goto "revise_user_stories".

Definition revise_user_stories : handler := λ e,
  user_stories ← state_getitem "user_stories";
  fb ← state_getitem "feedback";
  feedback ← lift (getitem fb "product_owner");
  llm ← state_get "llm" VNone;
  lift (pipe llm);;
  result ← invoke e;
  stories ← lift (getattr result "user_stories");
  dicts ← lift (story_dicts stories);
  state_setitem "user_stories" dicts;;
  add_to_history e "ai" "User stories revised based on feedback";;
  goto "product_owner_review".

End Handlers.
End UserStories.

(** ** [modular-architecture.py] *)

Module Requirements.

(** [collect_requirements] of [src/nodes/requirements.py]: it calls no
    model and stores a fixed document. *)
Definition collect_requirements : handler := λ e,
  state_setitem_in "user_inputs" "requirements_document"
    (VStr "Sample requirements document");;
  add_to_history e "ai" "Requirements collected";;
  goto "generate_user_stories".

End Requirements.

(** ** The workflow graph of [modular-architecture.py] *)

Module DevWorkflow.

(** The graph under construction: the registered nodes, the unconditional
    edges, the conditional edges with their decision functions, and the entry
    point. *)
Record StateGraph : Type := {
  nodes : gmap string handler;
  edges : list (string * string);
  branches : list (string * (State → result string));
  entry_point : option string
}.

Definition new_graph : StateGraph :=
  {| nodes := ∅; edges := []; branches := []; entry_point := None |}.

Definition add_node (name : string) (f : handler) (g : StateGraph) : StateGraph :=
  {| nodes := <[name := f]> (nodes g);
     edges := edges g;
     branches := branches g;
     entry_point := entry_point g |}.

Definition add_edge (src dst : string) (g : StateGraph) : StateGraph :=
  {| nodes := nodes g;
     edges := edges g ++ [(src, dst)];
     branches := branches g;
     entry_point := entry_point g |}.

Definition add_conditional_edges (src : string) (path : State → result string)
    (g : StateGraph) : StateGraph :=
  {| nodes := nodes g;
     edges := edges g;
     branches := branches g ++ [(src, path)];
     entry_point := entry_point g |}.

Definition set_entry_point (name : string) (g : StateGraph) : StateGraph :=
  {| nodes := nodes g;
     edges := edges g;
     branches := branches g;
     entry_point := Some name |}.

(** The terminal marker of the graph library. *)
Definition END : string := "__end__".

(** The decision functions: the lambdas of the six conditional edges. *)

Definition product_owner_review_path (state : State) : result string :=
  feedback ← getitem (VDict state) "feedback";
  review ← get feedback "product_owner" (VDict ∅);
  approved ← get review "approved" (VBool false);
  Ok (if truthy approved then "create_design_documents" else "revise_user_stories").

Definition design_review_path (state : State) : result string :=
  feedback ← getitem (VDict state) "feedback";
  review ← get feedback "design_review" (VDict ∅);
  approved ← get review "approved" (VBool false);
  Ok (if truthy approved then "generate_code" else "revise_design_documents").

Definition code_review_path (state : State) : result string :=
  feedback ← getitem (VDict state) "feedback";
  review ← get feedback "code_review" (VDict ∅);
  approved ← get review "approved" (VBool false);
  Ok (if truthy approved then "security_review" else "fix_code_after_review").

Definition security_review_path (state : State) : result string :=
  feedback ← getitem (VDict state) "feedback";
  review ← get feedback "security_review" (VDict ∅);
  approved ← get review "approved" (VBool false);
  Ok (if truthy approved then "write_test_cases" else "fix_code_after_security").

Definition test_cases_review_path (state : State) : result string :=
  feedback ← getitem (VDict state) "feedback";
  review ← get feedback "test_cases_review" (VDict ∅);
  approved ← get review "approved" (VBool false);
  Ok (if truthy approved then "qa_testing" else "fix_test_cases").

Definition qa_testing_path (state : State) : result string :=
  qa_results ← getitem (VDict state) "qa_results";
  passed ← get qa_results "passed" (VBool false);
  Ok (if truthy passed then "deployment" else "fix_code_after_qa").

Section Workflow.
Context `{Rendering}.

(** [create_development_workflow].  The node modules [requirements] and
    [user_stories] are the ones embedded above.  The files of the modules
    [design], [code], [testing] and [deployment] are not among the sources;
    [development-workflow-agent.py] defines a node function under each of
    the names imported from them, and those are registered here. *)
Definition create_development_workflow : StateGraph :=
  let workflow := new_graph in
  (* Requirements phase *)
  let workflow := add_node "collect_requirements" Requirements.collect_requirements workflow in
  let workflow := add_node "generate_user_stories" UserStories.generate_user_stories workflow in
  let workflow := add_node "product_owner_review" UserStories.product_owner_review workflow in
  let workflow := add_node "revise_user_stories" UserStories.revise_user_stories workflow in
  (* Design phase *)
  let workflow := add_node "create_design_documents" Monolith.create_design_documents workflow in
  let workflow := add_node "design_review" Monolith.design_review workflow in
  let workflow := add_node "revise_design_documents" Monolith.revise_design_documents workflow in
  (* Implementation phase *)
  let workflow := add_node "generate_code" Monolith.generate_code workflow in
  let workflow := add_node "code_review" Monolith.code_review workflow in
  let workflow := add_node "fix_code_after_review" Monolith.fix_code_after_review workflow in
  let workflow := add_node "security_review" Monolith.security_review workflow in
  let workflow := add_node "fix_code_after_security" Monolith.fix_code_after_security workflow in
  (* Testing phase *)
  let workflow := add_node "write_test_cases" Monolith.write_test_cases workflow in
  let workflow := add_node "test_cases_review" Monolith.test_cases_review workflow in
  let workflow := add_node "fix_test_cases" Monolith.fix_test_cases workflow in
  let workflow := add_node "qa_testing" Monolith.qa_testing workflow in
  let workflow := add_node "fix_code_after_qa" Monolith.fix_code_after_qa workflow in
  (* Deployment phase *)
  let workflow := add_node "deployment" Monolith.deployment workflow in
  let workflow := add_node "monitoring" Monolith.monitoring workflow in
  let workflow := add_node "maintenance" Monolith.maintenance workflow in
  (* Requirements flow *)
  let workflow := add_edge "collect_requirements" "generate_user_stories" workflow in
  let workflow := add_edge "generate_user_stories" "product_owner_review" workflow in
  let workflow := add_conditional_edges "product_owner_review" product_owner_review_path workflow in
  let workflow := add_edge "revise_user_stories" "product_owner_review" workflow in
  (* Design flow *)
  let workflow := add_edge "create_design_documents" "design_review" workflow in
  let workflow := add_conditional_edges "design_review" design_review_path workflow in
  let workflow := add_edge "revise_design_documents" "design_review" workflow in
  (* Implementation flow *)
  let workflow := add_edge "generate_code" "code_review" workflow in
  let workflow := add_conditional_edges "code_review" code_review_path workflow in
  let workflow := add_edge "fix_code_after_review" "code_review" workflow in
  let workflow := add_conditional_edges "security_review" security_review_path workflow in
  let workflow := add_edge "fix_code_after_security" "security_review" workflow in
  (* Testing flow *)
  let workflow := add_edge "write_test_cases" "test_cases_review" workflow in
  let workflow := add_conditional_edges "test_cases_review" test_cases_review_path workflow in
  let workflow := add_edge "fix_test_cases" "test_cases_review" workflow in
  let workflow := add_conditional_edges "qa_testing" qa_testing_path workflow in
  let workflow := add_edge "fix_code_after_qa" "qa_testing" workflow in
  (* Deployment and maintenance flow *)
  let workflow := add_edge "deployment" "monitoring" workflow in
  let workflow := add_edge "monitoring" "maintenance" workflow in
  (* Feedback loop from maintenance back to requirements *)
  let workflow := add_edge "maintenance" "collect_requirements" workflow in
  set_entry_point "collect_requirements" workflow.

End Workflow.

(** The first entry of an association list under a key. *)
Fixpoint assoc {A} (k : string) (l : list (string * A)) : option A :=
  match l with
  | [] => None
  | (k', a) :: l' => if String.eqb k k' then Some a else assoc k l'
  end.

(** The step that follows [step] in state [st]: the decision function of its
    conditional edge when it has one, else the target of its unconditional
    edge; a step with no outgoing edge ends the run. *)
Definition resolve_next (g : StateGraph) (step : string) (st : State) : result string :=
  match assoc step (branches g) with
  | Some path => path st
  | None =>
      match assoc step (edges g) with
      | Some dst => Ok dst
      | None => Ok END
      end
  end.

(** [WorkflowState(current_step="collect_requirements").dict()]: every
    declared field at its default. *)
Definition initial_state : State :=
  <["user_inputs" := VDict ∅]>
  (<["user_stories" := VList []]>
  (<["design_documents" := VDict ∅]>
  (<["code" := VDict ∅]>
  (<["test_cases" := VList []]>
  (<["qa_results" := VDict ∅]>
  (<["maintenance_notes" := VList []]>
  (<["current_step" := VStr "collect_requirements"]>
  (<["history" := VList []]>
  (<["feedback" := VDict ∅]> ∅))))))))).


(** How a run ends. *)
Inductive outcome : Type :=
  | Finished
  | BudgetExhausted
  | Halted (step : string) (e : error).

(** Modelled from the spec: the Executor of §4.3, which in the repository is
    the driver of the graph library and not part of its sources.  While
    [current_step] is not the terminal marker and the iteration budget lasts:
    look up the handler of [current_step] ([UnknownStepError] if there is
    none), invoke it, resolve the next step from the transition table, store
    it in [current_step], report the step, and repeat.  Any exception halts
    the run at the step that raised it.  [oracle i] is what the [i]-th
    invocation obtains from the clock and the model.  The result is the
    list of the steps reported, the state, and how the run ended. *)
Fixpoint run (g : StateGraph) (budget : nat) (oracle : nat → env) (i : nat)
    (st : State) : list string * State * outcome :=
  match budget with
  | O => ([], st, BudgetExhausted)
  | S budget' =>
      match st !! "current_step" with
      | Some (VStr step) =>
          if String.eqb step END then ([], st, Finished)
          else
            match (nodes g !! step : option handler) with
            | None => ([], st, Halted step (UnknownStepError step))
            | Some h =>
                match h (oracle i) st with
                | (st', Raise e) => ([], st', Halted step e)
                | (st', Ok _) =>
                    match resolve_next g step st' with
                    | Raise e => ([], st', Halted step e)
                    | Ok next =>
                        let '(trace, st'', o) :=
                          run g budget' oracle (S i) (<["current_step" := VStr next]> st') in
                        (step :: trace, st'', o)
                    end
                end
            end
      | Some _ => ([], st, Halted "" TypeError)
      | None => ([], st, Halted "" (KeyError "current_step"))
      end
  end.

End DevWorkflow.

(** * Specification-side definitions *)

Import DevWorkflow.

(** The graph that [create_development_workflow] returns. *)
Abbreviation workflow := create_development_workflow.

(** A rendering for the concrete examples: the audit messages are never
    inspected. *)
Definition plain : Rendering := λ _, "".

(** The review gates whose decision function reads the [feedback] mapping:
    the gate step, the key under which its decision function looks the review
    up, its forward target and its paired fix/revise step.  The sixth gate,
    [qa_testing], reads [qa_results] instead. *)
Definition review_gates : list (string * string * string * string) :=
  [ ("product_owner_review", "product_owner", "create_design_documents", "revise_user_stories");
    ("design_review", "design_review", "generate_code", "revise_design_documents");
    ("code_review", "code_review", "security_review", "fix_code_after_review");
    ("security_review", "security_review", "write_test_cases", "fix_code_after_security");
    ("test_cases_review", "test_cases_review", "qa_testing", "fix_test_cases") ].

(** The fix/revise steps, each with its originating gate. *)
Definition fix_steps : list (string * string) :=
  [ ("revise_user_stories", "product_owner_review");
    ("revise_design_documents", "design_review");
    ("fix_code_after_review", "code_review");
    ("fix_code_after_security", "security_review");
    ("fix_test_cases", "test_cases_review");
    ("fix_code_after_qa", "qa_testing") ].

(** The names under which [create_development_workflow] registers a node. *)
Definition step_names : list string :=
  [ "collect_requirements"; "generate_user_stories"; "product_owner_review";
    "revise_user_stories"; "create_design_documents"; "design_review";
    "revise_design_documents"; "generate_code"; "code_review";
    "fix_code_after_review"; "security_review"; "fix_code_after_security";
    "write_test_cases"; "test_cases_review"; "fix_test_cases"; "qa_testing";
    "fix_code_after_qa"; "deployment"; "monitoring"; "maintenance" ].

(** The steps before release of a pass in which every gate approves: the
    generate steps and the gates, in the order of the state-machine table. *)
Definition forward_steps : list string :=
  [ "collect_requirements"; "generate_user_stories"; "product_owner_review";
    "create_design_documents"; "design_review"; "generate_code";
    "code_review"; "security_review"; "write_test_cases";
    "test_cases_review"; "qa_testing" ].

(** The three release steps, which close the pass. *)
Definition release_steps : list string :=
  [ "deployment"; "monitoring"; "maintenance" ].

Section Handler_tables.
Context `{Rendering}.

(** The node functions of [development-workflow-agent.py]. *)
Definition monolith_handlers : list handler :=
  [ Monolith.collect_requirements; Monolith.generate_user_stories;
    Monolith.product_owner_review; Monolith.revise_user_stories;
    Monolith.create_design_documents; Monolith.design_review;
    Monolith.revise_design_documents; Monolith.generate_code;
    Monolith.code_review; Monolith.fix_code_after_review;
    Monolith.security_review; Monolith.fix_code_after_security;
    Monolith.write_test_cases; Monolith.test_cases_review;
    Monolith.fix_test_cases; Monolith.qa_testing; Monolith.fix_code_after_qa;
    Monolith.deployment; Monolith.monitoring; Monolith.maintenance ].

(** The node functions of [user-stories-module.py]. *)
Definition user_stories_handlers : list handler :=
  [ UserStories.generate_user_stories; UserStories.product_owner_review;
    UserStories.revise_user_stories ].

(** The nodes of the graph, as [create_development_workflow] registers
    them. *)
Definition registry : list (string * handler) :=
  [ ("collect_requirements", Requirements.collect_requirements);
    ("generate_user_stories", UserStories.generate_user_stories);
    ("product_owner_review", UserStories.product_owner_review);
    ("revise_user_stories", UserStories.revise_user_stories);
    ("create_design_documents", Monolith.create_design_documents);
    ("design_review", Monolith.design_review);
    ("revise_design_documents", Monolith.revise_design_documents);
    ("generate_code", Monolith.generate_code);
    ("code_review", Monolith.code_review);
    ("fix_code_after_review", Monolith.fix_code_after_review);
    ("security_review", Monolith.security_review);
    ("fix_code_after_security", Monolith.fix_code_after_security);
    ("write_test_cases", Monolith.write_test_cases);
    ("test_cases_review", Monolith.test_cases_review);
    ("fix_test_cases", Monolith.fix_test_cases);
    ("qa_testing", Monolith.qa_testing);
    ("fix_code_after_qa", Monolith.fix_code_after_qa);
    ("deployment", Monolith.deployment);
    ("monitoring", Monolith.monitoring);
    ("maintenance", Monolith.maintenance) ].

(** The handlers of the review gates, by gate step. *)
Definition gate_handlers : list (string * handler) :=
  [ ("product_owner_review", Monolith.product_owner_review);
    ("product_owner_review", UserStories.product_owner_review);
    ("design_review", Monolith.design_review);
    ("code_review", Monolith.code_review);
    ("security_review", Monolith.security_review);
    ("test_cases_review", Monolith.test_cases_review) ].

(** Every handler that calls the model. *)
Definition model_handlers : list handler :=
  monolith_handlers ++ user_stories_handlers.

(** Every handler of the sources. *)
Definition all_handlers : list handler :=
  Requirements.collect_requirements :: model_handlers.

End Handler_tables.

(** An audit record: a dict with exactly the keys [actor], [message] and
    [timestamp]. *)
Definition is_entry (v : value) : Prop :=
  ∃ actor message timestamp,
    v = VDict (<["actor" := VStr actor]>
              (<["message" := VStr message]>
              (<["timestamp" := VStr timestamp]> ∅))).

(** What one handler invocation does to [history]: when it returns, the list
    it found has one more record at its end; when it raises, [history] is as
    it found it. *)
Definition history_effect (st : State) (out : State * result unit) : Prop :=
  match out with
  | (st', Ok _) =>
      ∃ hist entry, st !! "history" = Some (VList hist) ∧ is_entry entry ∧
                    st' !! "history" = Some (VList (hist ++ [entry]))
  | (st', Raise _) => st' !! "history" = st !! "history"
  end.

(** A sequence of handler invocations on the same state, each with what it
    obtains from the clock and the model. *)
Fixpoint invocations (calls : list (handler * env)) : M unit :=
  match calls with
  | [] => mret tt
  | (h, e) :: calls' => h e;; invocations calls'
  end.

(** The states that a run can be in: the initial one, the ones a registered
    handler returns, and those with [current_step] updated. *)
Inductive reachable `{Rendering} : State → Prop :=
  | reachable_initial : reachable initial_state
  | reachable_handler st st' step h e :
      reachable st →
      nodes create_development_workflow !! step = Some h →
      h e st = (st', Ok tt) →
      reachable st'
  | reachable_goto st next :
      reachable st →
      reachable (<["current_step" := VStr next]> st).

(** What the decision functions rely on: [feedback] is a dict of dicts and
    [qa_results] is a dict. *)
Definition routable (st : State) : Prop :=
  (∃ fb, st !! "feedback" = Some (VDict fb) ∧
         ∀ k v, fb !! k = Some v → ∃ d, v = VDict d) ∧
  (∃ q, st !! "qa_results" = Some (VDict q)).

(** The reply has a true flag ([approved], [passed]). *)
Definition approving (flag : string) (v : value) : bool :=
  match getitem v flag with
  | Ok a => truthy a
  | Raise _ => false
  end.

(** The steps that the transition table leads through from [step] in [n]
    transitions, all resolved in the state [st], and the step reached. *)
Fixpoint walk (g : StateGraph) (n : nat) (step : string) (st : State)
    : result (list string * string) :=
  match n with
  | O => Ok ([], step)
  | S n' =>
      next ← resolve_next g step st;
      rest ← walk g n' next st;
      Ok (step :: rest.1, rest.2)
  end.

(** Every decision is an approval: [feedback] holds, under the key of each
    review gate, a review with a true [approved] flag, and [qa_results] has
    a true [passed] flag. *)
Definition all_approved (st : State) : Prop :=
  (∃ fb, st !! "feedback" = Some (VDict fb) ∧
         ∀ gate key forward repair,
           (gate, key, forward, repair) ∈ review_gates →
           ∃ review, fb !! key = Some review ∧ approving "approved" review = true) ∧
  (∃ qa, st !! "qa_results" = Some qa ∧ approving "passed" qa = true).

(** ** Concrete inputs for the examples *)

(** A reply that serves every handler and approves at every gate. *)
Definition approving_reply : value :=
  VDict (<["approved" := VBool true]>
        (<["passed" := VBool true]>
        (<["pass_rate" := VInt 100]>
        (<["user_stories" := VList [VDict ∅]]>
        (<["test_cases" := VList []]> ∅))))).

Definition approving_env : env := Env "2024-01-01T00:00:00" (Some approving_reply).

(** A reply that rejects at every gate. *)
Definition rejecting_reply : value :=
  VDict (<["approved" := VBool false]>
        (<["passed" := VBool false]>
        (<["pass_rate" := VInt 0]>
        (<["user_stories" := VList [VDict ∅; VDict ∅]]>
        (<["test_cases" := VList []]> ∅))))).

Definition rejecting_env : env := Env "2024-01-01T00:00:00" (Some rejecting_reply).

(** The initial state with an approval at every gate. *)
Definition approved_state : State :=
  <["feedback" := VDict (<["product_owner" := approving_reply]>
                        (<["design_review" := approving_reply]>
                        (<["code_review" := approving_reply]>
                        (<["security_review" := approving_reply]>
                        (<["test_cases_review" := approving_reply]> ∅)))))]>
  (<["qa_results" := approving_reply]> initial_state).

(** The model call fails. *)
Definition failing_env : env := Env "2024-01-01T00:00:00" None.

(** The initial state after a product-owner review that rejected. *)
Definition reviewed_state : State :=
  <["feedback" := VDict (<["product_owner" := rejecting_reply]> ∅)]> initial_state.

(** The initial state with a product-owner review given as a note. *)
Definition noted_state : State :=
  <["feedback" := VDict (<["product_owner" := VStr "Add acceptance criteria"]> ∅)]>
  initial_state.

(** ** Tables for the further properties *)

(** The record that [add_to_history] appends. *)
Definition audit_record (actor message timestamp : string) : value :=
  VDict (<["actor" := VStr actor]>
        (<["message" := VStr message]>
        (<["timestamp" := VStr timestamp]> ∅))).

(** The review handlers of [development-workflow-agent.py]: the gate step,
    its handler, the state keys the handler reads before it calls the model,
    and the two wordings of its audit message. *)
Definition review_handlers
    : list (string * handler * list string * (string * string * string)) :=
  [ ("product_owner_review", Monolith.product_owner_review, ["user_stories"],
     ("Product owner review: ", "Approved", "Needs revision"));
    ("design_review", Monolith.design_review, ["design_documents"],
     ("Design review: ", "Approved", "Needs revision"));
    ("code_review", Monolith.code_review, ["code"],
     ("Code review: ", "Approved", "Needs revision"));
    ("security_review", Monolith.security_review, ["code"],
     ("Security review: ", "Approved", "Security issues found"));
    ("test_cases_review", Monolith.test_cases_review, ["test_cases"; "user_stories"],
     ("Test cases review: ", "Approved", "Needs revision")) ].

(** The fix/revise handlers that read a review: the handler, the artifact it
    reads first, and the key of the review in [feedback]. *)
Definition review_fixers : list (handler * string * string) :=
  [ (Monolith.revise_user_stories, "user_stories", "product_owner");
    (UserStories.revise_user_stories, "user_stories", "product_owner");
    (Monolith.revise_design_documents, "design_documents", "design_review");
    (Monolith.fix_code_after_review, "code", "code_review");
    (Monolith.fix_code_after_security, "code", "security_review");
    (Monolith.fix_test_cases, "test_cases", "test_cases_review") ].

(** What each handler of the sources may write: the handler with the keys of
    the state dict that it assigns to or updates in place. *)
Definition footprints `{Rendering} : list (handler * list string) :=
  [ (Requirements.collect_requirements, ["user_inputs"; "history"; "current_step"]);
    (Monolith.collect_requirements, ["user_inputs"; "history"; "current_step"]);
    (Monolith.generate_user_stories, ["user_stories"; "history"; "current_step"]);
    (UserStories.generate_user_stories, ["user_stories"; "history"; "current_step"]);
    (Monolith.product_owner_review, ["feedback"; "history"; "current_step"]);
    (UserStories.product_owner_review, ["feedback"; "history"; "current_step"]);
    (Monolith.revise_user_stories, ["user_stories"; "history"; "current_step"]);
    (UserStories.revise_user_stories, ["user_stories"; "history"; "current_step"]);
    (Monolith.create_design_documents, ["design_documents"; "history"; "current_step"]);
    (Monolith.design_review, ["feedback"; "history"; "current_step"]);
    (Monolith.revise_design_documents, ["design_documents"; "history"; "current_step"]);
    (Monolith.generate_code, ["code"; "history"; "current_step"]);
    (Monolith.code_review, ["feedback"; "history"; "current_step"]);
    (Monolith.fix_code_after_review, ["code"; "history"; "current_step"]);
    (Monolith.security_review, ["feedback"; "history"; "current_step"]);
    (Monolith.fix_code_after_security, ["code"; "history"; "current_step"]);
    (Monolith.write_test_cases, ["test_cases"; "history"; "current_step"]);
    (Monolith.test_cases_review, ["feedback"; "history"; "current_step"]);
    (Monolith.fix_test_cases, ["test_cases"; "history"; "current_step"]);
    (Monolith.qa_testing, ["qa_results"; "history"; "current_step"]);
    (Monolith.fix_code_after_qa, ["code"; "history"; "current_step"]);
    (Monolith.deployment, ["deployment_plan"; "history"; "current_step"]);
    (Monolith.monitoring, ["monitoring_results"; "history"; "current_step"]) ].

(** The handlers that store the whole reply of the model as an artifact,
    with the field they store it in. *)
Definition stores_reply : list (handler * string) :=
  [ (Monolith.create_design_documents, "design_documents");
    (Monolith.revise_design_documents, "design_documents");
    (Monolith.generate_code, "code");
    (Monolith.fix_code_after_review, "code");
    (Monolith.fix_code_after_security, "code");
    (Monolith.fix_code_after_qa, "code") ].

(** The handlers that store one entry of the reply as an artifact, with the
    key of the entry, which is also the field. *)
Definition stores_entry `{Rendering} : list (handler * string) :=
  [ (Monolith.generate_user_stories, "user_stories");
    (Monolith.revise_user_stories, "user_stories");
    (Monolith.write_test_cases, "test_cases");
    (Monolith.fix_test_cases, "test_cases") ].

(** A Python dict. *)
Definition is_dict (v : value) : bool :=
  match v with VDict _ => true | _ => false end.

(** Each gate handler of [development-workflow-agent.py] with the handler
    of its fix/revise step. *)
Definition gate_then_fix `{Rendering} : list (handler * handler) :=
  [ (Monolith.product_owner_review, Monolith.revise_user_stories);
    (Monolith.design_review, Monolith.revise_design_documents);
    (Monolith.code_review, Monolith.fix_code_after_review);
    (Monolith.security_review, Monolith.fix_code_after_security);
    (Monolith.test_cases_review, Monolith.fix_test_cases);
    (Monolith.qa_testing, Monolith.fix_code_after_qa) ].

(** The handlers of the user-story phase that both files define: the one of
    [development-workflow-agent.py] with its namesake of
    [user-stories-module.py]. *)
Definition namesakes `{Rendering} : list (handler * handler) :=
  [ (Monolith.generate_user_stories, UserStories.generate_user_stories);
    (Monolith.product_owner_review, UserStories.product_owner_review);
    (Monolith.revise_user_stories, UserStories.revise_user_stories) ].

(** The exception of a handler of [user-stories-module.py] whose reads
    succeeded and whose chain, if composed, returned: [TypeError] from the
    composition of the chain when what the state holds under [llm] is not
    accepted, [AttributeError] from the attribute read on the parsed reply
    otherwise. *)
Definition modular_error (st : State) : error :=
  if runnable (default VNone (st !! "llm")) then AttributeError else TypeError.

(** A reply that is a dict without any flag. *)
Definition flagless_env : env := Env "2024-01-01T00:00:00" (Some (VDict ∅)).

(** The initial state after a design review whose [approved] flag is the
    string [false]. *)
Definition string_flag_state : State :=
  <["feedback" := VDict (<["design_review" :=
                           VDict (<["approved" := VStr "false"]> ∅)]> ∅)]>
  initial_state.

(** * Proofs *)

(** ** Tactics *)

(** Lookups in a state that was written to. *)
Ltac norm_lookup :=
  repeat first
    [ rewrite lookup_insert_eq
    | rewrite lookup_insert_ne by done ].

(** Case analysis on the innermost scrutinee of the goal, after trying the
    hypotheses that already determine it. *)
Ltac inner_case :=
  match goal with
  | H : ?x = _ |- context [match ?x with _ => _ end] => rewrite H
  | |- context [match ?x with _ => _ end] =>
      lazymatch x with
      | context [match _ with _ => _ end] => fail
      | _ => destruct x eqn:?
      end
  end.

(** Symbolic execution of a handler applied to a state. *)
Ltac exec :=
  cbv [goto add_to_history invoke lift state_getitem state_get state_setitem
       state_setitem_in state_append mbind M_bind mret M_ret getattr to_dict];
  repeat (norm_lookup; inner_case; cbv beta iota).

Ltac unfold_handlers :=
  cbv [Monolith.collect_requirements Monolith.generate_user_stories
       Monolith.product_owner_review Monolith.revise_user_stories
       Monolith.create_design_documents Monolith.design_review
       Monolith.revise_design_documents Monolith.generate_code
       Monolith.code_review Monolith.fix_code_after_review
       Monolith.security_review Monolith.fix_code_after_security
       Monolith.write_test_cases Monolith.test_cases_review
       Monolith.fix_test_cases Monolith.qa_testing Monolith.fix_code_after_qa
       Monolith.deployment Monolith.monitoring Monolith.maintenance
       Monolith.maintenance_reads Monolith.maintenance_rest
       UserStories.generate_user_stories UserStories.product_owner_review
       UserStories.revise_user_stories Requirements.collect_requirements].

(** Execution of a handler on a concrete state with a concrete reply. *)
Ltac concrete :=
  cbv [initial_state reviewed_state approving_env rejecting_env failing_env
       approving_reply rejecting_reply reply now fst snd invocations];
  unfold_handlers;
  cbv [goto add_to_history invoke lift state_getitem state_get state_setitem
       state_setitem_in state_append mbind M_bind mret M_ret reply now];
  repeat (norm_lookup;
          cbv [getitem get getattr to_dict pipe runnable len truthy slice_to
               UserStories.story_dicts traverse mbind result_bind length
               default from_option id fst snd]).

(** Evaluation of a decision function. *)
Ltac exec_path :=
  cbv [product_owner_review_path design_review_path code_review_path
       security_review_path test_cases_review_path qa_testing_path
       mbind result_bind getitem get];
  repeat (inner_case; cbv beta iota).

(** Membership in a literal list, one element at a time. *)
Ltac each_elem H :=
  repeat (apply elem_of_cons in H as [H | H]; [ | ]);
  [ .. | by apply elem_of_nil in H ].

(** ** The transition table *)

Ltac solve_elem :=
  repeat first [ apply list_elem_of_here | apply list_elem_of_further ].

(** The conditional edges. *)
Lemma resolve_next_gates `{Rendering} (st : State) :
  resolve_next workflow "product_owner_review" st = product_owner_review_path st ∧
  resolve_next workflow "design_review" st = design_review_path st ∧
  resolve_next workflow "code_review" st = code_review_path st ∧
  resolve_next workflow "security_review" st = security_review_path st ∧
  resolve_next workflow "test_cases_review" st = test_cases_review_path st ∧
  resolve_next workflow "qa_testing" st = qa_testing_path st.
Proof. by repeat split. Qed.

Ltac to_path :=
  first
    [ rewrite (proj1 (resolve_next_gates _))
    | rewrite (proj1 (proj2 (resolve_next_gates _)))
    | rewrite (proj1 (proj2 (proj2 (resolve_next_gates _))))
    | rewrite (proj1 (proj2 (proj2 (proj2 (resolve_next_gates _)))))
    | rewrite (proj1 (proj2 (proj2 (proj2 (proj2 (resolve_next_gates _))))))
    | rewrite (proj2 (proj2 (proj2 (proj2 (proj2 (resolve_next_gates _)))))) ].

Section Transition_table.
Context `{Rendering}.

Lemma registered_inv step h :
  nodes workflow !! step = Some h → (step, h) ∈ registry.
Proof.
  unfold create_development_workflow.
  cbn [nodes add_node add_edge add_conditional_edges set_entry_point new_graph].
  intros Hs.
  repeat (apply lookup_insert_Some in Hs as [[<- <-] | [_ Hs]]; [ solve_elem | ]).
  by rewrite lookup_empty in Hs.
Qed.

Lemma registered_intro step h :
  (step, h) ∈ registry → nodes workflow !! step = Some h.
Proof.
  unfold create_development_workflow.
  cbn [nodes add_node add_edge add_conditional_edges set_entry_point new_graph].
  intros Hs.
  repeat (apply elem_of_cons in Hs as [Hs | Hs];
          [ inversion Hs; subst; clear Hs; norm_lookup; reflexivity | ]).
  by apply elem_of_nil in Hs.
Qed.

Lemma registered_name step h :
  (step, h) ∈ registry → step ∈ step_names.
Proof.
  intros Hs.
  repeat (apply elem_of_cons in Hs as [Hs | Hs];
          [ inversion Hs; subst; clear Hs; solve_elem | ]).
  by apply elem_of_nil in Hs.
Qed.

Lemma registered_not_END step h :
  nodes workflow !! step = Some h → String.eqb step END = false.
Proof.
  intros Hnode%registered_inv%registered_name.
  each_elem Hnode; by subst.
Qed.

(** One iteration of the driver. *)
Lemma run_S g budget oracle i (st : State) :
  run g (S budget) oracle i st =
  match st !! "current_step" with
  | Some (VStr step) =>
      if String.eqb step END then ([], st, Finished)
      else
        match (nodes g !! step : option handler) with
        | None => ([], st, Halted step (UnknownStepError step))
        | Some h =>
            match h (oracle i) st with
            | (st', Raise e) => ([], st', Halted step e)
            | (st', Ok _) =>
                match resolve_next g step st' with
                | Raise e => ([], st', Halted step e)
                | Ok next =>
                    let '(trace, st'', o) :=
                      run g budget oracle (S i) (<["current_step" := VStr next]> st') in
                    (step :: trace, st'', o)
                end
            end
        end
  | Some _ => ([], st, Halted "" TypeError)
  | None => ([], st, Halted "" (KeyError "current_step"))
  end.
Proof. reflexivity. Qed.

(** A decision function that finds its review applies Python's truth value
    to the flag. *)
Lemma review_path_flag (st : State) fb key review v (forward repair : string) :
  st !! "feedback" = Some (VDict fb) →
  fb !! key = Some (VDict review) →
  review !! "approved" = Some v →
  (feedback ← getitem (VDict st) "feedback";
   review ← get feedback key (VDict ∅);
   approved ← get review "approved" (VBool false);
   Ok (if truthy approved then forward else repair))
  = Ok (if truthy v then forward else repair).
Proof.
  intros Hfb Hkey Hv. cbn. rewrite Hfb. cbn. rewrite Hkey. cbn. by rewrite Hv.
Qed.

(** A decision function that finds no review, or a review without the flag,
    takes the defaults of its two [get]s. *)
Lemma review_path_default (st : State) fb key (forward repair : string) :
  st !! "feedback" = Some (VDict fb) →
  fb !! key = None ∨ (∃ review, fb !! key = Some (VDict review) ∧
                                review !! "approved" = None) →
  (feedback ← getitem (VDict st) "feedback";
   review ← get feedback key (VDict ∅);
   approved ← get review "approved" (VBool false);
   Ok (if truthy approved then forward else repair))
  = Ok repair.
Proof.
  intros Hfb [Hkey | (review & Hkey & Hv)]; cbn; rewrite Hfb; cbn; rewrite Hkey; cbn.
  - by rewrite lookup_empty.
  - by rewrite Hv.
Qed.

(** C2: at each of the six gates the decision function returns the gate's
    forward target when the approval flag it inspects is true and the gate's
    paired fix/revise step when the flag is false, and the two differ; the
    pairings are those of [review_gates], and (deployment | fix_code_after_qa)
    for [qa_testing], which is keyed on [qa_results.passed].  The flag is
    taken by its Python truth value. *)
Theorem gate_decisions_paired :
  (∀ gate key forward repair (st : State) fb review v,
     (gate, key, forward, repair) ∈ review_gates →
     st !! "feedback" = Some (VDict fb) →
     fb !! key = Some (VDict review) →
     review !! "approved" = Some v →
     resolve_next workflow gate st = Ok (if truthy v then forward else repair) ∧
     forward ≠ repair) ∧
  (∀ (st : State) qa v,
     st !! "qa_results" = Some (VDict qa) →
     qa !! "passed" = Some v →
     resolve_next workflow "qa_testing" st
     = Ok (if truthy v then "deployment" else "fix_code_after_qa")) ∧
  "deployment" ≠ "fix_code_after_qa".
Proof.
  split; [ | split; [ | done ] ].
  - intros gate key forward repair st fb review v Hin Hfb Hkey Hv.
    each_elem Hin; inversion Hin; subst; clear Hin; (split; [ | done ]).
    all: exact (review_path_flag st fb _ review v _ _ Hfb Hkey Hv).
  - intros st qa v Hqa Hv.
    change (resolve_next workflow "qa_testing" st) with (qa_testing_path st).
    unfold qa_testing_path. cbn. rewrite Hqa. cbn. by rewrite Hv.
Qed.

(** C3: after each fix/revise step the next step is its originating gate,
    whatever the state: the step has an unconditional edge to the gate and no
    conditional edge. *)
Theorem fix_steps_return_to_gate repair gate (st : State) :
  (repair, gate) ∈ fix_steps →
  resolve_next workflow repair st = Ok gate ∧
  assoc repair (branches workflow) = None ∧
  assoc repair (edges workflow) = Some gate.
Proof.
  intros Hin.
  each_elem Hin; inversion Hin; subst; clear Hin; by repeat split.
Qed.

(** C1, as amended: when the [feedback] mapping has no entry under the key
    that a gate's decision function inspects, or the entry lacks the
    [approved] flag, or [qa_results] lacks [passed], resolving the next step
    raises nothing: it returns the gate's paired fix/revise step. *)
Theorem missing_feedback_routes_to_fix :
  (∀ gate key forward repair (st : State) fb,
     (gate, key, forward, repair) ∈ review_gates →
     st !! "feedback" = Some (VDict fb) →
     fb !! key = None ∨ (∃ review, fb !! key = Some (VDict review) ∧
                                   review !! "approved" = None) →
     resolve_next workflow gate st = Ok repair) ∧
  (∀ (st : State) qa,
     st !! "qa_results" = Some (VDict qa) →
     qa !! "passed" = None →
     resolve_next workflow "qa_testing" st = Ok "fix_code_after_qa").
Proof.
  split.
  - intros gate key forward repair st fb Hin Hfb Hkey.
    each_elem Hin; inversion Hin; subst; clear Hin.
    all: exact (review_path_default st fb _ _ _ Hfb Hkey).
  - intros st qa Hqa Hv.
    change (resolve_next workflow "qa_testing" st) with (qa_testing_path st).
    unfold qa_testing_path. cbn. rewrite Hqa. cbn. by rewrite Hv.
Qed.

(** Every edge of the graph leads to a registered step. *)
Lemma resolve_next_registered step h (st : State) next :
  nodes workflow !! step = Some h →
  resolve_next workflow step st = Ok next →
  is_Some (nodes workflow !! next) ∧ next ≠ END.
Proof.
  intros Hnode%registered_inv%registered_name.
  each_elem Hnode; subst step.
  all: try to_path; exec_path.
  all: intros [= <-]; (split; [ eexists; apply registered_intro; solve_elem | done ]).
Qed.

Lemma getitem_inv v k a :
  getitem v k = Ok a → ∃ d, v = VDict d ∧ d !! k = Some a.
Proof.
  destruct v; cbn; try done.
  destruct (d !! k) eqn:Hd; [ | done ]. intros [= <-]. eauto.
Qed.

(** *** The decision functions are total on the states of a run *)

Lemma routable_initial : routable initial_state.
Proof.
  split.
  - exists ∅. split; [ done | ]. intros k v. by rewrite lookup_empty.
  - by exists ∅.
Qed.

Lemma routable_goto (st : State) v :
  routable st → routable (<["current_step" := v]> st).
Proof.
  intros [(fb & Hfb & Hdicts) (q & Hq)].
  split; [ exists fb | exists q ]; by norm_lookup.
Qed.

Lemma routable_write (fb : gmap string value) (k : string) (v : value) :
  (∀ k' v', fb !! k' = Some v' → ∃ d, v' = VDict d) →
  (∃ d, v = VDict d) →
  ∀ k' v', <[k := v]> fb !! k' = Some v' → ∃ d, v' = VDict d.
Proof.
  intros Hfb Hv k' v' [[_ <-] | [_ Hk']]%lookup_insert_Some; eauto.
Qed.

Lemma routable_handler step h e (st st' : State) :
  nodes workflow !! step = Some h →
  routable st → h e st = (st', Ok tt) → routable st'.
Proof.
  intros Hnode%registered_inv [(fb & Hfb & Hdicts) (q & Hq)].
  unfold registry in Hnode.
  each_elem Hnode; inversion Hnode; subst; clear Hnode.
  all: unfold_handlers; exec; intros ?; simplify_eq.
  all: repeat match goal with
         | Hg : getitem _ _ = Ok _ |- _ =>
             apply getitem_inv in Hg as (? & ? & ?); simplify_eq
         end.
  all: (split; [ eexists; split; [ norm_lookup; done | ]
               | eexists; norm_lookup; done ]).
  all: try done.
  all: apply routable_write; eauto.
Qed.

Lemma reachable_routable (st : State) : reachable st → routable st.
Proof.
  induction 1 as [ | st st' step h e _ IH Hnode Hrun | st next _ IH ].
  - apply routable_initial.
  - by eapply routable_handler.
  - by apply routable_goto.
Qed.

Lemma routable_resolves step h (st : State) :
  nodes workflow !! step = Some h → routable st →
  ∃ next, resolve_next workflow step st = Ok next.
Proof.
  intros Hnode%registered_inv%registered_name [(fb & Hfb & Hdicts) (q & Hq)].
  each_elem Hnode; subst step.
  all: try (by eexists).
  all: to_path; exec_path; try (by eexists).
  all: exfalso;
    match goal with
    | Heq : default _ (?m !! ?k) = _,
      Hd : ∀ k v, ?m !! k = Some v → _ |- _ =>
        let Hk := fresh in
        destruct (m !! k) as [ v | ] eqn:Hk; cbn in Heq;
        [ destruct (Hd _ _ Hk) as [d ->] | ]; discriminate
    end.
Qed.

(** *** No run ends at the terminal marker *)

Lemma run_never_finishes budget :
  ∀ oracle i (st : State),
    st !! "current_step" ≠ Some (VStr END) →
    (run workflow budget oracle i st).2 ≠ Finished.
Proof.
  induction budget as [ | budget IH ]; intros oracle i st Hstep; [ done | ].
  rewrite run_S.
  destruct (st !! "current_step") as [ [ | | | | step | | ] | ] eqn:Hcur; try done.
  destruct (String.eqb step END) eqn:Hend.
  { apply String.eqb_eq in Hend as ->. done. }
  destruct (nodes workflow !! step) as [ h | ] eqn:Hnode; [ | done ].
  cbn.
  destruct (h (oracle i) st) as [st' [ [] | err ]]; [ | done ].
  destruct (resolve_next workflow step st') as [ next | err ] eqn:Hnext; [ | done ].
  destruct (resolve_next_registered _ _ _ _ Hnode Hnext) as [_ Hne].
  specialize (IH oracle (S i) (<["current_step" := VStr next]> st')).
  destruct (run workflow budget oracle (S i) (<["current_step" := VStr next]> st'))
    as [[trace st''] o].
  apply IH. rewrite lookup_insert_eq. congruence.
Qed.

(** C4: the graph is cyclic and has no terminal state.  [maintenance] leads
    back to [collect_requirements] whatever the state; from a registered
    step every resolved next step is a registered step, never the terminal
    marker; in every state that a run from the initial state can reach the
    next step of every registered step resolves; and no run from the initial
    state, whatever its budget and whatever the model replies, ends at the
    terminal marker: it stops when the caller's budget is spent or when an
    exception halts it. *)
Theorem no_terminal_state :
  (∀ st : State, resolve_next workflow "maintenance" st = Ok "collect_requirements") ∧
  (∀ step h (st : State) next,
     nodes workflow !! step = Some h →
     resolve_next workflow step st = Ok next →
     is_Some (nodes workflow !! next) ∧ next ≠ END) ∧
  (∀ step h (st : State),
     reachable st →
     nodes workflow !! step = Some h →
     ∃ next, resolve_next workflow step st = Ok next ∧
             is_Some (nodes workflow !! next) ∧ next ≠ END) ∧
  (∀ budget oracle,
     (run workflow budget oracle 0 initial_state).2 ≠ Finished).
Proof.
  split; [ done | ]. split; [ | split ].
  - intros step h st next. apply resolve_next_registered.
  - intros step h st Hreach%reachable_routable Hnode.
    destruct (routable_resolves _ _ _ Hnode Hreach) as [next Hnext].
    exists next. split; [ done | ].
    by eapply resolve_next_registered.
  - intros budget oracle. by apply run_never_finishes.
Qed.

End Transition_table.

(** C1, as stated, fails: in the initial state [feedback] has no entry under
    [design_review], and resolving the step after [design_review] returns
    [revise_design_documents] instead of raising. *)
Lemma missing_feedback_counterexample :
  initial_state !! "feedback" = Some (VDict ∅) ∧
  (∅ : gmap string value) !! "design_review" = None ∧
  resolve_next (@create_development_workflow plain) "design_review" initial_state
  = Ok "revise_design_documents".
Proof. by vm_compute. Qed.

Lemma missing_feedback_routes_to_fix_witness :
  resolve_next (@create_development_workflow plain) "design_review" initial_state
  = Ok "revise_design_documents".
Proof.
  apply (proj1 (@missing_feedback_routes_to_fix plain)
           "design_review" "design_review" "generate_code"
           "revise_design_documents" initial_state ∅).
  - solve_elem.
  - reflexivity.
  - left. reflexivity.
Defined.

Lemma gate_decisions_paired_witness :
  resolve_next (@create_development_workflow plain) "product_owner_review" reviewed_state
  = Ok "revise_user_stories" ∧
  "create_design_documents" ≠ "revise_user_stories".
Proof.
  refine (proj1 (@gate_decisions_paired plain)
            "product_owner_review" "product_owner" "create_design_documents"
            "revise_user_stories" reviewed_state _ _ (VBool false) _ _ _ _).
  - solve_elem.
  - reflexivity.
  - reflexivity.
  - reflexivity.
Defined.

Lemma fix_steps_return_to_gate_witness :
  resolve_next (@create_development_workflow plain) "fix_code_after_review" initial_state
  = Ok "code_review" ∧
  assoc "fix_code_after_review" (branches (@create_development_workflow plain)) = None ∧
  assoc "fix_code_after_review" (edges (@create_development_workflow plain)) = Some "code_review".
Proof.
  apply (@fix_steps_return_to_gate plain). solve_elem.
Defined.

(** ** The handlers *)

Section Handler_effects.
Context `{Rendering}.

Ltac handler_cases Hin :=
  cbv [all_handlers model_handlers monolith_handlers user_stories_handlers app] in Hin;
  each_elem Hin; subst.

Lemma handlers_history_effect h e (st : State) :
  h ∈ all_handlers → history_effect st (h e st).
Proof.
  intros Hin. unfold history_effect.
  handler_cases Hin.
  all: unfold_handlers; exec.
  all: norm_lookup;
    first [ done
          | eexists _, _; split; [ done | ]; split;
            [ by eexists _, _, _ | norm_lookup; done ] ].
Qed.

Lemma handlers_model_failure h e (st : State) :
  h ∈ model_handlers → reply e = None →
  ∃ err, h e st = (st, Raise err) ∧
         (err = ModelCallError ∨ ∀ e', h e' st = (st, Raise err)).
Proof.
  intros Hin Hreply.
  cbv [model_handlers monolith_handlers user_stories_handlers app] in Hin.
  each_elem Hin; subst.
  all: unfold_handlers; exec.
  all: eexists; split; [ reflexivity | ]; first [ by left | by right ].
Qed.

(** The handlers of [user-stories-module.py] raise on every state and leave
    it as it was: where the chain is built and returns, the attribute read
    on its parsed reply raises before anything is written. *)
Lemma user_stories_handlers_raise h e (st : State) :
  h ∈ user_stories_handlers → ∃ err, h e st = (st, Raise err).
Proof.
  intros Hin. unfold user_stories_handlers in Hin.
  each_elem Hin; subst.
  all: unfold_handlers; exec; by eexists.
Qed.

(** C5: the claim holds of [revise_user_stories] in
    [development-workflow-agent.py] and fails, by a slip, of its namesake in
    [user-stories-module.py].  Run on a state that holds any prior
    [user_stories] and given a reply whose story list has size [K], the
    former returns a state whose [user_stories] is that list, of size [K]:
    the field is replaced, not merged.  The latter, on the same state and
    reply, raises and leaves the state, and so the prior list, as it was: it
    composes its chain with [state.get("llm")], which is [None] unless the
    state was given a model, and it reads the stories as an attribute of the
    parsed reply, which is a dict. *)
Theorem revise_replaces_only_in_monolith
    e (st : State) prior fb review hist result stories K :
  st !! "user_stories" = Some prior →
  st !! "feedback" = Some (VDict fb) →
  fb !! "product_owner" = Some review →
  st !! "history" = Some (VList hist) →
  reply e = Some (VDict result) →
  result !! "user_stories" = Some (VList stories) →
  length stories = K →
  (∃ st', Monolith.revise_user_stories e st = (st', Ok tt) ∧
          st' !! "user_stories" = Some (VList stories)) ∧
  (∀ st' stories',
     Monolith.revise_user_stories e st = (st', Ok tt) →
     st' !! "user_stories" = Some (VList stories') →
     length stories' = K) ∧
  UserStories.revise_user_stories e st = (st, Raise (modular_error st)).
Proof.
  intros Hprior Hfb Hreview Hhist Hreply Hstories HK.
  assert (getitem (VDict fb) "product_owner" = Ok review) as Hget
    by (cbn; by rewrite Hreview).
  assert (getitem (VDict result) "user_stories" = Ok (VList stories)) as Hitem
    by (cbn; by rewrite Hstories).
  assert (∃ st', Monolith.revise_user_stories e st = (st', Ok tt) ∧
                 st' !! "user_stories" = Some (VList stories)) as Hmono.
  { unfold_handlers. exec. eexists; split; [ reflexivity | ]. by norm_lookup. }
  split; [ done | ].
  split.
  - intros st' stories' Hrun Hst'.
    destruct Hmono as (st1 & Hrun1 & Hst1). congruence.
  - unfold modular_error. unfold_handlers.
    cbv [state_getitem state_get lift mbind M_bind].
    rewrite Hprior, Hfb. cbv beta iota. rewrite Hget. cbv beta iota.
    unfold pipe.
    destruct (runnable (default VNone (st !! "llm"))); [ | done ].
    cbv [invoke lift]. rewrite Hreply. reflexivity.
Qed.

(** C7, as amended: a review gate's handler, when it returns, has stored
    the reply of the model in the [feedback] mapping under the key that the
    gate's decision function inspects, replacing whatever was there:
    [product_owner] for [product_owner_review], and the gate's own name for
    [design_review], [code_review], [security_review] and
    [test_cases_review].  The handler of [qa_testing] stores the reply in the
    field [qa_results] and leaves [feedback] alone. *)
Theorem gate_handlers_write_inspected_key :
  (∀ gate key forward repair h e (st st' : State),
     (gate, key, forward, repair) ∈ review_gates →
     (gate, h) ∈ gate_handlers →
     h e st = (st', Ok tt) →
     ∃ fb result,
       reply e = Some result ∧
       st !! "feedback" = Some (VDict fb) ∧
       st' !! "feedback" = Some (VDict (<[key := result]> fb))) ∧
  (∀ e (st st' : State),
     Monolith.qa_testing e st = (st', Ok tt) →
     ∃ result,
       reply e = Some result ∧
       st' !! "qa_results" = Some result ∧
       st' !! "feedback" = st !! "feedback").
Proof.
  split.
  - intros gate key forward repair h e st st' Hgate Hh.
    each_elem Hgate; inversion Hgate; subst; clear Hgate.
    all: cbv [gate_handlers] in Hh; each_elem Hh; inversion Hh; subst; clear Hh.
    all: unfold_handlers; exec; intros [= <-]; try discriminate.
    all: eexists _, _; split; [ done | ]; split; [ done | ]; norm_lookup; done.
  - intros e st st'. unfold_handlers; exec; intros [= <-]; try discriminate.
    all: eexists; split; [ done | ]; norm_lookup; done.
Qed.

(** C8: when the model call of a handler fails, the handler raises and the
    state is exactly the one it was given: no field written, no audit record
    appended, [current_step] not advanced.  The exception is the model's,
    unless a read of the state raised before the model was called, which
    then happens whatever the model does.  A run whose current step makes
    that call halts at that step, in that state. *)
Theorem model_failure_leaves_state :
  (∀ h e (st : State),
     h ∈ model_handlers → reply e = None →
     ∃ err, h e st = (st, Raise err) ∧
            (err = ModelCallError ∨ ∀ e', h e' st = (st, Raise err))) ∧
  (∀ step h budget oracle i (st : State),
     st !! "current_step" = Some (VStr step) →
     nodes workflow !! step = Some h →
     h ∈ model_handlers →
     reply (oracle i) = None →
     ∃ err, run workflow (S budget) oracle i st = ([], st, Halted step err)).
Proof.
  split; [ intros; by apply handlers_model_failure | ].
  intros step h budget oracle i st Hstep Hnode Hin Hreply.
  destruct (handlers_model_failure h (oracle i) st Hin Hreply) as (err & Hrun & _).
  exists err.
  by rewrite run_S, Hstep, (registered_not_END _ _ Hnode), Hnode, Hrun.
Qed.

Lemma invocations_history calls :
  Forall (λ c : handler * env, c.1 ∈ all_handlers) calls →
  ∀ (st st' : State) hist,
    st !! "history" = Some (VList hist) →
    invocations calls st = (st', Ok tt) →
    ∃ new, st' !! "history" = Some (VList (hist ++ new)) ∧
           Forall is_entry new ∧ length new = length calls.
Proof.
  induction 1 as [ | [h e] calls Hh _ IH ]; intros st st' hist Hhist.
  - intros [= <-]. exists []. by rewrite app_nil_r.
  - cbn [invocations]. unfold mbind, M_bind.
    pose proof (handlers_history_effect h e st Hh) as Heff.
    destruct (h e st) as [st1 [ [] | err ]]; [ | done ].
    destruct Heff as (hist0 & entry & Hhist0 & Hentry & Hhist1).
    rewrite Hhist in Hhist0. injection Hhist0 as <-.
    intros Hrest.
    destruct (IH st1 st' _ Hhist1 Hrest) as (new & Hnew & Hentries & Hlen).
    exists (entry :: new).
    rewrite <- app_assoc in Hnew. cbn in Hnew.
    split; [ done | ]. split; [ by constructor | ]. cbn. by rewrite Hlen.
Qed.

(** C6: [history] is append-only and grows by one record per handler
    invocation.  Every handler of the sources, when it returns, has appended
    exactly one {actor, message, timestamp} record to the list it found and
    left the earlier records in place; when it raises, [history] is as it
    found it.  So after [N] successful invocations the list has [N] more
    records than before, [N] in all when it was empty at the start. *)
Theorem history_append_only :
  (∀ h e (st : State), h ∈ all_handlers → history_effect st (h e st)) ∧
  (∀ calls (st st' : State) hist,
     Forall (λ c : handler * env, c.1 ∈ all_handlers) calls →
     st !! "history" = Some (VList hist) →
     invocations calls st = (st', Ok tt) →
     ∃ new, st' !! "history" = Some (VList (hist ++ new)) ∧
            Forall is_entry new ∧ length new = length calls) ∧
  (∀ calls (st st' : State),
     Forall (λ c : handler * env, c.1 ∈ all_handlers) calls →
     st !! "history" = Some (VList []) →
     invocations calls st = (st', Ok tt) →
     ∃ hist, st' !! "history" = Some (VList hist) ∧
             length hist = length calls).
Proof.
  split; [ | split ].
  - intros h e st Hin. by apply handlers_history_effect.
  - intros calls st st' hist Hcalls Hhist Hrun.
    by eapply invocations_history.
  - intros calls st st' Hcalls Hhist Hrun.
    destruct (invocations_history calls Hcalls st st' [] Hhist Hrun)
      as (new & Hnew & _ & Hlen).
    by exists new.
Qed.



End Handler_effects.

(** C7, as stated, fails: [product_owner_review], here approving the
    stories of the initial state, stores the review under [product_owner];
    [feedback] has no entry under the gate's name
    [product_owner_review]. *)
Lemma product_owner_review_key_counterexample :
  ∃ st' fb,
    Monolith.product_owner_review approving_env initial_state = (st', Ok tt) ∧
    st' !! "feedback" = Some (VDict fb) ∧
    fb !! "product_owner_review" = None ∧
    fb !! "product_owner" = Some approving_reply.
Proof.
  eexists _, (<["product_owner" := approving_reply]> ∅).
  split; [ concrete; reflexivity | ].
  split; [ by norm_lookup | ].
  split; [ by rewrite lookup_insert_ne, lookup_empty | by norm_lookup ].
Qed.

Lemma gate_handlers_write_inspected_key_witness :
  ∃ fb result,
    reply approving_env = Some result ∧
    initial_state !! "feedback" = Some (VDict fb) ∧
    (Monolith.product_owner_review approving_env initial_state).1 !! "feedback"
    = Some (VDict (<["product_owner" := result]> fb)).
Proof.
  assert (Monolith.product_owner_review approving_env initial_state
          = ((Monolith.product_owner_review approving_env initial_state).1, Ok tt))
    as Hrun by (concrete; reflexivity).
  refine (proj1 (@gate_handlers_write_inspected_key plain)
            "product_owner_review" "product_owner" "create_design_documents"
            "revise_user_stories" Monolith.product_owner_review approving_env
            initial_state _ _ _ Hrun); solve_elem.
Defined.

Lemma revise_replaces_only_in_monolith_witness :
  (∃ st',
     Monolith.revise_user_stories rejecting_env noted_state = (st', Ok tt) ∧
     st' !! "user_stories" = Some (VList [VDict ∅; VDict ∅])) ∧
  UserStories.revise_user_stories rejecting_env noted_state
  = (noted_state, Raise TypeError) ∧
  UserStories.revise_user_stories rejecting_env reviewed_state
  = (reviewed_state, Raise TypeError).
Proof.
  pose proof (revise_replaces_only_in_monolith rejecting_env noted_state
                (VList []) (<["product_owner" := VStr "Add acceptance criteria"]> ∅)
                (VStr "Add acceptance criteria") [] _ [VDict ∅; VDict ∅] 2%nat
                eq_refl eq_refl eq_refl eq_refl eq_refl eq_refl eq_refl)
    as (Hmono & _ & Hmodular).
  pose proof (revise_replaces_only_in_monolith rejecting_env reviewed_state
                (VList []) (<["product_owner" := rejecting_reply]> ∅)
                rejecting_reply [] _ [VDict ∅; VDict ∅] 2%nat
                eq_refl eq_refl eq_refl eq_refl eq_refl eq_refl eq_refl)
    as (_ & _ & Hreviewed).
  split; [ exact Hmono | ].
  split; [ exact Hmodular | exact Hreviewed ].
Defined.

Lemma model_failure_leaves_state_witness :
  ∃ err,
    Monolith.generate_code failing_env initial_state
    = (initial_state, Raise err) ∧
    (err = ModelCallError ∨
     ∀ e', Monolith.generate_code e' initial_state = (initial_state, Raise err)).
Proof.
  apply (proj1 (@model_failure_leaves_state plain)).
  - cbv [model_handlers monolith_handlers app]. solve_elem.
  - reflexivity.
Defined.

Lemma history_append_only_witness :
  ∃ hist,
    (invocations [(Requirements.collect_requirements, approving_env);
                  (Monolith.generate_code, approving_env)]
       initial_state).1 !! "history" = Some (VList hist) ∧
    length hist = 2%nat.
Proof.
  assert (invocations [(Requirements.collect_requirements, approving_env);
                       (Monolith.generate_code, approving_env)] initial_state
          = ((invocations [(Requirements.collect_requirements, approving_env);
                           (Monolith.generate_code, approving_env)]
                initial_state).1, Ok tt))
    as Hrun by (concrete; reflexivity).
  refine (proj2 (proj2 (@history_append_only plain)) _ initial_state _ _ _ Hrun).
  - repeat constructor; cbv [all_handlers model_handlers monolith_handlers app];
      cbn [fst]; solve_elem.
  - unfold initial_state. by norm_lookup.
Defined.


(** ** Handlers and edges agree *)

Section Handlers_and_edges.
Context `{Rendering}.

(** X1: a registered handler that returns has left in [current_step] the
    step that the transition table resolves for it: the hand-written routing
    of the handlers and the edges of the graph agree, and the driver's
    update of [current_step] stores what the handler already wrote. *)
Lemma handler_sets_resolved_step step h e (st st' : State) :
  nodes workflow !! step = Some h →
  h e st = (st', Ok tt) →
  ∃ next, resolve_next workflow step st' = Ok next ∧
          st' !! "current_step" = Some (VStr next).
Proof.
  intros Hnode%registered_inv.
  unfold registry in Hnode.
  each_elem Hnode; inversion Hnode; subst; clear Hnode.
  all: unfold_handlers; exec; intros ?; simplify_eq.
  all: try (eexists; split; [ reflexivity | by norm_lookup ]).
  all: repeat match goal with
         | Hg : getitem _ _ = Ok _ |- _ =>
             apply getitem_inv in Hg as (? & ? & ?); simplify_eq
         end.
  all: eexists; (split; [ | by norm_lookup ]).
  all: to_path;
    cbv [product_owner_review_path design_review_path code_review_path
         security_review_path test_cases_review_path qa_testing_path
         mbind result_bind getitem get];
    repeat first
      [ rewrite lookup_insert_eq
      | rewrite lookup_insert_ne by done
      | progress cbn [default from_option id]
      | match goal with
        | Hk : ?d !! ?k = Some _ |- context [?d !! ?k] => rewrite Hk
        | Ht : truthy ?a = _ |- context [truthy ?a] => rewrite Ht
        end ].
  all: reflexivity.
Qed.

End Handlers_and_edges.

(** ** The approving pass *)

Section Approving_pass.
Context `{Rendering}.

Lemma approving_inv flag v :
  approving flag v = true →
  ∃ d a, v = VDict d ∧ d !! flag = Some a ∧ truthy a = true.
Proof.
  unfold approving. destruct (getitem v flag) as [ a | ] eqn:Hget; [ | done ].
  apply getitem_inv in Hget as (d & -> & Hd). eauto.
Qed.

Lemma walk_S g n step (st : State) :
  walk g (S n) step st =
  (next ← resolve_next g step st;
   rest ← walk g n next st;
   Ok (step :: rest.1, rest.2)).
Proof. reflexivity. Qed.

Lemma resolve_next_edge g step dst (st : State) :
  assoc step (branches g) = None →
  assoc step (edges g) = Some dst →
  resolve_next g step st = Ok dst.
Proof. unfold resolve_next. by intros -> ->. Qed.

Lemma approved_forward (st : State) gate key forward repair :
  all_approved st →
  (gate, key, forward, repair) ∈ review_gates →
  resolve_next workflow gate st = Ok forward.
Proof.
  intros [(fb & Hfb & Hgates) _] Hin.
  destruct (Hgates _ _ _ _ Hin)
    as (review & Hkey & (d & a & -> & Ha & Ht)%approving_inv).
  unfold review_gates in Hin.
  each_elem Hin; inversion Hin; subst; clear Hin.
  all: to_path;
    unfold product_owner_review_path, design_review_path, code_review_path,
      security_review_path, test_cases_review_path;
    rewrite (review_path_flag st fb _ d a _ _ Hfb Hkey Ha); by rewrite Ht.
Qed.

Lemma approved_qa_forward (st : State) :
  all_approved st → resolve_next workflow "qa_testing" st = Ok "deployment".
Proof.
  intros [_ (qa & Hqa & (d & a & -> & Ha & Ht)%approving_inv)].
  to_path. cbv [qa_testing_path mbind result_bind getitem get].
  rewrite Hqa. cbv beta iota. rewrite Ha. cbn [default from_option id].
  by rewrite Ht.
Qed.

(** The transition table alone, with every decision an approval. *)
Lemma approved_walk (st : State) :
  all_approved st →
  walk workflow 14 "collect_requirements" st
  = Ok ((forward_steps ++ release_steps)%list, "collect_requirements").
Proof.
  intros Hst.
  pose proof (λ g k f r Hin, approved_forward st g k f r Hst Hin) as Hgate.
  pose proof (approved_qa_forward st Hst) as Hqa.
  assert (resolve_next workflow "product_owner_review" st = Ok "create_design_documents")
    as H1 by (eapply Hgate; solve_elem).
  assert (resolve_next workflow "design_review" st = Ok "generate_code")
    as H2 by (eapply Hgate; solve_elem).
  assert (resolve_next workflow "code_review" st = Ok "security_review")
    as H3 by (eapply Hgate; solve_elem).
  assert (resolve_next workflow "security_review" st = Ok "write_test_cases")
    as H4 by (eapply Hgate; solve_elem).
  assert (resolve_next workflow "test_cases_review" st = Ok "qa_testing")
    as H5 by (eapply Hgate; solve_elem).
  do 14 (rewrite walk_S;
         first [ rewrite H1 | rewrite H2 | rewrite H3 | rewrite H4 | rewrite H5
               | rewrite Hqa
               | erewrite resolve_next_edge by reflexivity ];
         cbv [mbind result_bind]).
  reflexivity.
Qed.

(** C9, as amended: starting at [collect_requirements] with every gate's
    decision an approval ([approved] true under each review key,
    [qa_results.passed] true), the transitions lead through the eleven steps
    before release (the five generate steps and the six gates, in the order
    of the state-machine table) and then the three release steps, fourteen
    steps in all, and back to [collect_requirements]; no fix/revise step is
    among them.  The decisions are those of the graph that
    [create_development_workflow] builds, taken in a state that holds every
    approval. *)
Theorem approving_pass :
  (∀ st : State,
     all_approved st →
     walk workflow 14 "collect_requirements" st
     = Ok ((forward_steps ++ release_steps)%list, "collect_requirements")) ∧
  length forward_steps = 11%nat ∧
  length release_steps = 3%nat ∧
  (∀ repair gate, (repair, gate) ∈ fix_steps →
                  repair ∉ (forward_steps ++ release_steps)%list).
Proof.
  split; [ apply approved_walk | ].
  repeat split; try done.
  intros repair gate Hin.
  unfold fix_steps in Hin.
  each_elem Hin; inversion Hin; subst; clear Hin.
  all: cbv [forward_steps release_steps app]; intros Hbad;
    each_elem Hbad; discriminate.
Qed.

End Approving_pass.

(** C9, as stated, fails on the count: with every decision an approval the
    transitions lead through eleven steps before the three release steps,
    fourteen in all, before they are back at [collect_requirements]; the
    pass is not made of eight steps followed by the release steps, and after
    eight plus three transitions it is only about to enter [deployment]. *)
Lemma approving_pass_counterexample :
  walk (@create_development_workflow plain) 14 "collect_requirements" approved_state
  = Ok ([ "collect_requirements"; "generate_user_stories"; "product_owner_review";
          "create_design_documents"; "design_review"; "generate_code";
          "code_review"; "security_review"; "write_test_cases";
          "test_cases_review"; "qa_testing"; "deployment"; "monitoring";
          "maintenance" ], "collect_requirements") ∧
  (∃ steps,
     walk (@create_development_workflow plain) (8 + 3) "collect_requirements"
       approved_state = Ok (steps, "deployment")) ∧
  ¬ (∃ forward,
       length forward = 8%nat ∧
       walk (@create_development_workflow plain) 14 "collect_requirements"
         approved_state
       = Ok ((forward ++ release_steps)%list, "collect_requirements")).
Proof.
  assert (walk (@create_development_workflow plain) 14 "collect_requirements"
            approved_state
          = Ok ([ "collect_requirements"; "generate_user_stories";
                  "product_owner_review"; "create_design_documents";
                  "design_review"; "generate_code"; "code_review";
                  "security_review"; "write_test_cases"; "test_cases_review";
                  "qa_testing"; "deployment"; "monitoring"; "maintenance" ],
                "collect_requirements")) as Hwalk by (vm_compute; reflexivity).
  split; [ exact Hwalk | ].
  split; [ eexists; vm_compute; reflexivity | ].
  intros (forward & Hlen & Heq). rewrite Hwalk in Heq.
  injection Heq as Heq.
  apply (f_equal length) in Heq. rewrite length_app, Hlen in Heq. discriminate Heq.
Qed.

Lemma approving_pass_witness :
  walk (@create_development_workflow plain) 14 "collect_requirements" approved_state
  = Ok ((forward_steps ++ release_steps)%list, "collect_requirements").
Proof.
  apply (proj1 (@approving_pass plain) approved_state).
  split.
  - eexists. split; [ unfold approved_state; norm_lookup; reflexivity | ].
    intros gate key forward repair Hin.
    unfold review_gates in Hin.
    each_elem Hin; inversion Hin; subst; clear Hin.
    all: eexists; split; [ norm_lookup; reflexivity | vm_compute; reflexivity ].
  - eexists. split; [ unfold approved_state; norm_lookup; reflexivity | ].
    vm_compute; reflexivity.
Defined.

Lemma no_terminal_state_witness :
  is_Some (nodes (@create_development_workflow plain) !! "collect_requirements") ∧
  "collect_requirements" ≠ END.
Proof.
  apply (proj1 (proj2 (@no_terminal_state plain))
           "maintenance" (@Monolith.maintenance plain) initial_state
           "collect_requirements").
  - apply registered_intro. solve_elem.
  - reflexivity.
Defined.

(** * Further properties of the handlers and of the graph *)

(** Symbolic execution that also steps through lookups of keys that were
    just written. *)
Ltac exec_on :=
  cbv [goto add_to_history invoke lift state_getitem state_get state_setitem
       state_setitem_in state_append mbind M_bind mret M_ret];
  repeat first
    [ progress norm_lookup
    | progress cbv beta iota
    | inner_case ].

Section Further_properties.
Context `{Rendering}.

(** X2: a review handler whose reply has no [approved] entry raises, but
    only after it has stored the reply in [feedback] under its key: the
    state it leaves differs from the one it was given in that entry, and
    nothing is appended to [history].  [qa_testing] likewise has stored the
    reply in [qa_results] when the reply lacks [passed] or [pass_rate]. *)
Theorem review_without_flag_is_half_written :
  (∀ gate h reads wording key forward repair e (st : State) fb result err,
     (gate, h, reads, wording) ∈ review_handlers →
     (gate, key, forward, repair) ∈ review_gates →
     (∀ k, k ∈ reads → is_Some (st !! k)) →
     st !! "feedback" = Some (VDict fb) →
     reply e = Some result →
     getitem result "approved" = Raise err →
     h e st = (<["feedback" := VDict (<[key := result]> fb)]> st, Raise err)) ∧
  (∀ e (st : State) code cases result err,
     st !! "code" = Some code →
     st !! "test_cases" = Some cases →
     reply e = Some result →
     getitem result "passed" = Raise err ∨
     (is_ok (getitem result "passed") = true ∧
      getitem result "pass_rate" = Raise err) →
     Monolith.qa_testing e st = (<["qa_results" := result]> st, Raise err)).
Proof.
  split.
  - intros gate h reads wording key forward repair e st fb result err
      Hh Hgate Hreads Hfb Hreply Hflag.
    unfold review_handlers in Hh.
    each_elem Hh; inversion Hh; subst; clear Hh.
    all: unfold review_gates in Hgate;
      each_elem Hgate; inversion Hgate; subst; clear Hgate.
    all: unfold_handlers; exec; try reflexivity.
    all: exfalso;
      match goal with
      | Hn : _ !! ?k = None, Hr : ∀ k, k ∈ _ → is_Some _ |- _ =>
          destruct (Hr k) as [? ?]; [ solve_elem | congruence ]
      end.
  - intros e st code cases result err Hcode Hcases Hreply [Hflag | [Hflag Hrate]].
    + unfold_handlers; exec; reflexivity.
    + destruct (getitem result "passed") as [ a | ] eqn:Ha; [ | done ].
      unfold_handlers; exec; reflexivity.
Qed.

(** X3: a fix/revise handler that reads a review raises [KeyError] with the
    review's key when [feedback] has no entry under it, as in a state where
    its gate never ran; it does so before it calls the model, whatever the
    model would reply, and leaves the state as it was. *)
Theorem fix_without_review_raises h artifact key e (st : State) a fb :
  (h, artifact, key) ∈ review_fixers →
  st !! artifact = Some a →
  st !! "feedback" = Some (VDict fb) →
  fb !! key = None →
  h e st = (st, Raise (KeyError key)).
Proof.
  intros Hh Ha Hfb Hkey.
  assert (getitem (VDict fb) key = Raise (KeyError key)) as Hget
    by (cbn; by rewrite Hkey).
  unfold review_fixers in Hh.
  each_elem Hh; inversion Hh; subst; clear Hh.
  all: unfold_handlers; exec; reflexivity.
Qed.

(** X4: what a gate handler stores is there for the handler of its
    fix/revise step: on the state that the gate handler returned, the fix
    handler finds every key it reads and gets as far as its chain.  When the
    chain raises, the fix handler raises with it and the state is as the
    gate handler left it. *)
Theorem fix_reads_what_its_gate_wrote gate_h fix_h e e' (st st1 : State) :
  (gate_h, fix_h) ∈ gate_then_fix →
  gate_h e st = (st1, Ok tt) →
  reply e' = None →
  fix_h e' st1 = (st1, Raise ModelCallError).
Proof.
  intros Hh Hrun Hreply. revert Hrun.
  unfold gate_then_fix in Hh.
  each_elem Hh; inversion Hh; subst; clear Hh.
  all: match goal with
       | |- ?g = (?s1, _) → ?f ?e2 ?s1 = _ =>
           set (P := λ s : State, f e2 s = (s, Raise ModelCallError));
           change (g = (s1, Ok tt) → P s1)
       end.
  all: unfold_handlers; exec; intros ?; simplify_eq.
  all: subst P; cbv beta.
  all: unfold_handlers; exec_on.
  all: try reflexivity.
  all: exfalso;
    match goal with
    | Hg : getitem (VDict _) _ = Raise _ |- _ =>
        cbn in Hg; rewrite lookup_insert_eq in Hg; discriminate
    end.
Qed.

(** X5: however a handler ends, the keys of the state outside its
    footprint hold what they held before: a handler writes its own artifact
    field (or [feedback]), [history] and [current_step], and nothing
    else. *)
Theorem handlers_write_only_their_keys h keys e (st st' : State) r k :
  (h, keys) ∈ footprints →
  h e st = (st', r) →
  k ∉ keys →
  st' !! k = st !! k.
Proof.
  intros Hh Hrun Hk. revert Hrun.
  unfold footprints in Hh.
  each_elem Hh; inversion Hh; subst; clear Hh.
  all: rewrite !not_elem_of_cons in Hk; destruct Hk as (Hk1 & Hk2 & Hk3 & _).
  all: unfold_handlers; exec; intros [= <- _]; try done.
  all: by rewrite ?lookup_insert_ne by congruence.
Qed.

(** X6: the decision functions are partial.  That of a review gate raises
    [KeyError] when the state has no [feedback], and [AttributeError] when
    [feedback] is not a dict or holds under the gate's key something that is
    not a dict; that of [qa_testing] raises [KeyError] when the state has no
    [qa_results] and [AttributeError] when [qa_results] is not a dict. *)
Theorem decisions_raise_on_malformed_state :
  (∀ gate key forward repair (st : State),
     (gate, key, forward, repair) ∈ review_gates →
     (st !! "feedback" = None →
      resolve_next workflow gate st = Raise (KeyError "feedback")) ∧
     (∀ v, st !! "feedback" = Some v → is_dict v = false →
           resolve_next workflow gate st = Raise AttributeError) ∧
     (∀ fb v, st !! "feedback" = Some (VDict fb) → fb !! key = Some v →
              is_dict v = false →
              resolve_next workflow gate st = Raise AttributeError)) ∧
  (∀ st : State,
     (st !! "qa_results" = None →
      resolve_next workflow "qa_testing" st = Raise (KeyError "qa_results")) ∧
     (∀ v, st !! "qa_results" = Some v → is_dict v = false →
           resolve_next workflow "qa_testing" st = Raise AttributeError)).
Proof.
  split.
  - intros gate key forward repair st Hgate.
    unfold review_gates in Hgate.
    each_elem Hgate; inversion Hgate; subst; clear Hgate.
    all: to_path.
    all: (split; [ | split ]).
    all: try (intros Hfb; exec_path; done).
    all: try (intros v Hfb Hv; exec_path; destruct v; done).
    all: intros fb v Hfb Hkey Hv;
      cbv [product_owner_review_path design_review_path code_review_path
           security_review_path test_cases_review_path mbind result_bind getitem get];
      rewrite Hfb; cbv beta iota; rewrite Hkey; by destruct v.
  - intros st. to_path. split.
    + intros Hqa. exec_path; done.
    + intros v Hqa Hv. exec_path; destruct v; done.
Qed.

(** X7: a review gate routes on the Python truth value of the flag, which
    need not be a boolean: a non-empty string (the string [false] too) or a
    non-zero number sends the run forward; [None], [False], [0], the empty
    string, the empty list and the empty dict send it to the fix/revise
    step. *)
Theorem decisions_use_truthiness gate key forward repair (st : State) fb review v :
  (gate, key, forward, repair) ∈ review_gates →
  st !! "feedback" = Some (VDict fb) →
  fb !! key = Some (VDict review) →
  review !! "approved" = Some v →
  (∀ s, v = VStr s → s ≠ "" → resolve_next workflow gate st = Ok forward) ∧
  (∀ z, v = VInt z → z ≠ 0%Z → resolve_next workflow gate st = Ok forward) ∧
  (v ∈ [VNone; VBool false; VInt 0; VStr ""; VList []; VDict ∅] →
   resolve_next workflow gate st = Ok repair).
Proof.
  intros Hgate Hfb Hkey Hv.
  assert (resolve_next workflow gate st = Ok (if truthy v then forward else repair)) as ->.
  { unfold review_gates in Hgate.
    each_elem Hgate; inversion Hgate; subst; clear Hgate.
    all: to_path; exact (review_path_flag st fb _ review v _ _ Hfb Hkey Hv). }
  split; [ | split ].
  - intros s -> Hs. cbn. destruct s; done.
  - intros z -> Hz. cbn. destruct (Z.eqb_spec z 0); done.
  - intros Hin. each_elem Hin; subst; done.
Qed.

(** X8: the handlers that produce or repair a design or the code store the
    whole reply of the model in their field, and those that produce or
    repair stories or test cases store the reply's entry of that name: when
    the handler returns, the field holds exactly that, whatever it held
    before. *)
Theorem artifacts_are_replaced :
  (∀ h field e (st st' : State),
     (h, field) ∈ stores_reply →
     h e st = (st', Ok tt) →
     is_Some (reply e) ∧ st' !! field = reply e) ∧
  (∀ h field e (st st' : State),
     (h, field) ∈ stores_entry →
     h e st = (st', Ok tt) →
     ∃ result v, reply e = Some result ∧ getitem result field = Ok v ∧
                 st' !! field = Some v).
Proof.
  split.
  - intros h field e st st' Hh.
    unfold stores_reply in Hh. each_elem Hh; inversion Hh; subst; clear Hh.
    all: unfold_handlers; exec; intros ?; simplify_eq.
    all: (split; [ by eexists | by norm_lookup ]).
  - intros h field e st st' Hh.
    unfold stores_entry in Hh. each_elem Hh; inversion Hh; subst; clear Hh.
    all: unfold_handlers; exec; intros ?; simplify_eq.
    all: eexists _, _; (split; [ done | ]); (split; [ done | by norm_lookup ]).
Qed.

(** X9: the handlers of [user-stories-module.py] cannot return: each raises
    on every state and leaves it as it was.  Where its namesake of
    [development-workflow-agent.py] returns, the handler raises [TypeError]
    from composing its chain with [state.get("llm")], unless the state holds
    under [llm] something that the composition accepts; then it raises
    [AttributeError] from reading a field of the parsed reply as an
    attribute. *)
Theorem modular_user_stories_raise :
  (∀ h e (st : State),
     h ∈ user_stories_handlers → ∃ err, h e st = (st, Raise err)) ∧
  (∀ mono modu e (st st' : State),
     (mono, modu) ∈ namesakes →
     mono e st = (st', Ok tt) →
     modu e st = (st, Raise (modular_error st))).
Proof.
  split; [ intros h e st; apply user_stories_handlers_raise | ].
  intros mono modu e st st' Hh.
  unfold namesakes in Hh.
  each_elem Hh; inversion Hh; subst; clear Hh.
  all: match goal with
       | |- _ → ?f ?e1 ?s0 = _ =>
           set (P := f e1 s0 = (s0, Raise (modular_error s0)));
           unfold_handlers; exec; intros ?; simplify_eq
       end.
  all: subst P; unfold modular_error; unfold_handlers; exec.
  all: repeat match goal with
         | Hp : pipe _ = _ |- _ => unfold pipe in Hp
         end.
  all: destruct (runnable (default VNone (st !! "llm"))); by simplify_eq.
Qed.

(** X10: in a review handler the audit message and the route never
    disagree: the record it appends, by actor [ai] at the time of the
    invocation, says that the artifact was approved exactly when
    [current_step] is set to the gate's forward target, both decided by the
    truth value of the reply's [approved] entry. *)
Theorem review_message_matches_route
    gate h reads label yes no key forward repair e (st st' : State) :
  (gate, h, reads, (label, yes, no)) ∈ review_handlers →
  (gate, key, forward, repair) ∈ review_gates →
  h e st = (st', Ok tt) →
  ∃ result a hist,
    reply e = Some result ∧
    getitem result "approved" = Ok a ∧
    st !! "history" = Some (VList hist) ∧
    st' !! "history"
    = Some (VList (hist ++ [audit_record "ai" (label ++ (if truthy a then yes else no))
                              (now e)])) ∧
    st' !! "current_step" = Some (VStr (if truthy a then forward else repair)).
Proof.
  intros Hh Hgate.
  unfold review_handlers in Hh.
  each_elem Hh; inversion Hh; subst; clear Hh.
  all: unfold review_gates in Hgate;
    each_elem Hgate; inversion Hgate; subst; clear Hgate.
  all: unfold_handlers; exec; intros ?; simplify_eq.
  all: eexists _, _, _; (split; [ done | ]); (split; [ done | ]); (split; [ done | ]).
  all: match goal with Ht : truthy _ = _ |- _ => rewrite Ht end.
  all: by norm_lookup.
Qed.

(** X11: a retry does not compound: when a handler returns, and returns
    again on the state it left, invoked with the same reply, the second
    state differs from the first in [history] only. *)
Theorem retry_changes_only_history h keys e e' (st st1 st2 : State) :
  (h, keys) ∈ footprints →
  h e st = (st1, Ok tt) →
  reply e' = reply e →
  h e' st1 = (st2, Ok tt) →
  ∀ k, k ≠ "history" → st2 !! k = st1 !! k.
Proof.
  intros Hh Hrun Hreply. revert Hrun.
  unfold footprints in Hh.
  each_elem Hh; inversion Hh; subst; clear Hh.
  all: match goal with
       | |- ?g ?e1 ?s0 = (?s1, _) → ?g ?e2 ?s1 = (?s2, _) → _ =>
           set (P := λ s : State,
                  g e2 s = (s2, Ok tt) →
                  ∀ k, k ≠ "history" → s2 !! k = s !! k);
           change (g e1 s0 = (s1, Ok tt) → P s1)
       end.
  all: unfold_handlers; exec; intros ?; simplify_eq.
  all: subst P; cbv beta.
  all: unfold_handlers; exec_on.
  all: intros ?; simplify_eq.
  all: intros k Hk;
    rewrite ?insert_insert_eq; rewrite !lookup_insert;
    repeat case_decide; congruence.
Qed.

Lemma sources_of_workflow :
  (map fst (edges workflow) ++ map fst (branches workflow))%list
  = [ "collect_requirements"; "generate_user_stories"; "revise_user_stories";
      "create_design_documents"; "revise_design_documents"; "generate_code";
      "fix_code_after_review"; "fix_code_after_security"; "write_test_cases";
      "fix_test_cases"; "fix_code_after_qa"; "deployment"; "monitoring";
      "maintenance"; "product_owner_review"; "design_review"; "code_review";
      "security_review"; "test_cases_review"; "qa_testing" ].
Proof. reflexivity. Qed.

Lemma edges_of_workflow :
  edges workflow
  = [ ("collect_requirements", "generate_user_stories");
      ("generate_user_stories", "product_owner_review");
      ("revise_user_stories", "product_owner_review");
      ("create_design_documents", "design_review");
      ("revise_design_documents", "design_review");
      ("generate_code", "code_review");
      ("fix_code_after_review", "code_review");
      ("fix_code_after_security", "security_review");
      ("write_test_cases", "test_cases_review");
      ("fix_test_cases", "test_cases_review");
      ("fix_code_after_qa", "qa_testing");
      ("deployment", "monitoring");
      ("monitoring", "maintenance");
      ("maintenance", "collect_requirements") ].
Proof. reflexivity. Qed.

(** X12: the graph that [create_development_workflow] builds is well
    formed: the sources of its unconditional and conditional edges are
    pairwise distinct and are exactly the registered steps, so every step
    has one way out and none has two; every unconditional edge leads to a
    registered step; and the entry point is [collect_requirements]. *)
Theorem every_step_has_one_way_out :
  NoDup (map fst (edges create_development_workflow) ++
         map fst (branches create_development_workflow))%list ∧
  (∀ step, step ∈ (map fst (edges workflow) ++ map fst (branches workflow))%list ↔
           is_Some (nodes workflow !! step)) ∧
  (∀ src dst, (src, dst) ∈ edges workflow → is_Some (nodes workflow !! dst)) ∧
  entry_point workflow = Some "collect_requirements".
Proof.
  rewrite sources_of_workflow, edges_of_workflow.
  split; [ | split; [ | split ] ].
  - apply (bool_decide_unpack _). by vm_compute.
  - intros step. split.
    + intros Hs. each_elem Hs; subst; eexists; apply registered_intro; solve_elem.
    + intros [h Hh%registered_inv%registered_name].
      unfold step_names in Hh; each_elem Hh; subst; solve_elem.
  - intros src dst Hin.
    each_elem Hin; inversion Hin; subst; eexists; apply registered_intro; solve_elem.
  - reflexivity.
Qed.

End Further_properties.

(** ** The further properties at concrete inputs *)

Lemma handler_sets_resolved_step_witness :
  ∃ next,
    resolve_next (@create_development_workflow plain) "generate_code"
      (Monolith.generate_code approving_env initial_state).1 = Ok next ∧
    (Monolith.generate_code approving_env initial_state).1 !! "current_step"
    = Some (VStr next).
Proof.
  assert (Monolith.generate_code approving_env initial_state
          = ((Monolith.generate_code approving_env initial_state).1, Ok tt))
    as Hrun by (concrete; reflexivity).
  refine (@handler_sets_resolved_step plain "generate_code" Monolith.generate_code
            approving_env initial_state _ _ Hrun).
  apply registered_intro. solve_elem.
Defined.

Lemma review_without_flag_is_half_written_witness :
  Monolith.design_review flagless_env initial_state
  = (<["feedback" := VDict (<["design_review" := VDict ∅]> ∅)]> initial_state,
     Raise (KeyError "approved")).
Proof.
  refine (proj1 (@review_without_flag_is_half_written plain)
            "design_review" Monolith.design_review ["design_documents"]
            ("Design review: ", "Approved", "Needs revision")
            "design_review" "generate_code" "revise_design_documents"
            flagless_env initial_state ∅ (VDict ∅) (KeyError "approved")
            _ _ _ _ _ _).
  - solve_elem.
  - solve_elem.
  - intros k Hk. each_elem Hk; subst. eexists. unfold initial_state. by norm_lookup.
  - unfold initial_state. by norm_lookup.
  - reflexivity.
  - reflexivity.
Defined.

Lemma fix_without_review_raises_witness :
  Monolith.fix_code_after_review approving_env initial_state
  = (initial_state, Raise (KeyError "code_review")).
Proof.
  refine (fix_without_review_raises Monolith.fix_code_after_review "code"
            "code_review" approving_env initial_state (VDict ∅) ∅ _ _ _ _).
  - solve_elem.
  - unfold initial_state. by norm_lookup.
  - unfold initial_state. by norm_lookup.
  - reflexivity.
Defined.

Lemma fix_reads_what_its_gate_wrote_witness :
  Monolith.revise_user_stories failing_env
    (Monolith.product_owner_review rejecting_env initial_state).1
  = ((Monolith.product_owner_review rejecting_env initial_state).1,
     Raise ModelCallError).
Proof.
  assert (Monolith.product_owner_review rejecting_env initial_state
          = ((Monolith.product_owner_review rejecting_env initial_state).1, Ok tt))
    as Hrun by (concrete; reflexivity).
  refine (@fix_reads_what_its_gate_wrote plain Monolith.product_owner_review
            Monolith.revise_user_stories rejecting_env failing_env
            initial_state _ _ Hrun _).
  - solve_elem.
  - reflexivity.
Defined.

Lemma handlers_write_only_their_keys_witness :
  (Monolith.generate_code approving_env initial_state).1 !! "feedback"
  = initial_state !! "feedback".
Proof.
  refine (@handlers_write_only_their_keys plain Monolith.generate_code
            ["code"; "history"; "current_step"] approving_env initial_state
            (Monolith.generate_code approving_env initial_state).1
            (Monolith.generate_code approving_env initial_state).2
            "feedback" _ _ _).
  - solve_elem.
  - by destruct (Monolith.generate_code approving_env initial_state).
  - rewrite !not_elem_of_cons. repeat split; try done. apply not_elem_of_nil.
Defined.

Lemma decisions_raise_on_malformed_state_witness :
  resolve_next (@create_development_workflow plain) "design_review" ∅
  = Raise (KeyError "feedback").
Proof.
  refine (proj1 (proj1 (@decisions_raise_on_malformed_state plain)
                   "design_review" "design_review" "generate_code"
                   "revise_design_documents" ∅ _) _).
  - solve_elem.
  - reflexivity.
Defined.

Lemma decisions_use_truthiness_witness :
  resolve_next (@create_development_workflow plain) "design_review" string_flag_state
  = Ok "generate_code".
Proof.
  refine (proj1 (@decisions_use_truthiness plain "design_review" "design_review"
                   "generate_code" "revise_design_documents" string_flag_state
                   (<["design_review" := VDict (<["approved" := VStr "false"]> ∅)]> ∅)
                   (<["approved" := VStr "false"]> ∅) (VStr "false") _ _ _ _)
            "false" eq_refl _).
  - solve_elem.
  - unfold string_flag_state. by norm_lookup.
  - by norm_lookup.
  - by norm_lookup.
  - done.
Defined.

Lemma artifacts_are_replaced_witness :
  is_Some (reply approving_env) ∧
  (Monolith.generate_code approving_env initial_state).1 !! "code"
  = reply approving_env.
Proof.
  assert (Monolith.generate_code approving_env initial_state
          = ((Monolith.generate_code approving_env initial_state).1, Ok tt))
    as Hrun by (concrete; reflexivity).
  refine (proj1 (@artifacts_are_replaced plain) Monolith.generate_code "code"
            approving_env initial_state _ _ Hrun).
  solve_elem.
Defined.

Lemma modular_user_stories_raise_witness :
  UserStories.product_owner_review rejecting_env initial_state
  = (initial_state, Raise TypeError).
Proof.
  assert (Monolith.product_owner_review rejecting_env initial_state
          = ((Monolith.product_owner_review rejecting_env initial_state).1, Ok tt))
    as Hrun by (concrete; reflexivity).
  refine (proj2 (@modular_user_stories_raise plain)
            Monolith.product_owner_review UserStories.product_owner_review
            rejecting_env initial_state _ _ Hrun).
  solve_elem.
Defined.

Lemma review_message_matches_route_witness :
  ∃ result a hist,
    reply approving_env = Some result ∧
    getitem result "approved" = Ok a ∧
    initial_state !! "history" = Some (VList hist) ∧
    (Monolith.design_review approving_env initial_state).1 !! "history"
    = Some (VList (hist ++ [audit_record "ai"
                              ("Design review: " ++
                               (if truthy a then "Approved" else "Needs revision"))
                              (now approving_env)])) ∧
    (Monolith.design_review approving_env initial_state).1 !! "current_step"
    = Some (VStr (if truthy a then "generate_code" else "revise_design_documents")).
Proof.
  assert (Monolith.design_review approving_env initial_state
          = ((Monolith.design_review approving_env initial_state).1, Ok tt))
    as Hrun by (concrete; reflexivity).
  refine (review_message_matches_route "design_review" Monolith.design_review
            ["design_documents"] "Design review: " "Approved" "Needs revision"
            "design_review" "generate_code" "revise_design_documents"
            approving_env initial_state _ _ _ Hrun); solve_elem.
Defined.

Lemma retry_changes_only_history_witness :
  (Requirements.collect_requirements approving_env
     (Requirements.collect_requirements approving_env initial_state).1).1
    !! "user_inputs"
  = (Requirements.collect_requirements approving_env initial_state).1
      !! "user_inputs".
Proof.
  assert (Requirements.collect_requirements approving_env initial_state
          = ((Requirements.collect_requirements approving_env initial_state).1, Ok tt))
    as Hrun by (concrete; reflexivity).
  assert (Requirements.collect_requirements approving_env
            (Requirements.collect_requirements approving_env initial_state).1
          = ((Requirements.collect_requirements approving_env
                (Requirements.collect_requirements approving_env initial_state).1).1,
             Ok tt))
    as Hretry by (concrete; reflexivity).
  refine (@retry_changes_only_history plain Requirements.collect_requirements
            ["user_inputs"; "history"; "current_step"] approving_env approving_env
            initial_state _ _ _ Hrun eq_refl Hretry "user_inputs" _).
  - solve_elem.
  - done.
Defined.
